(** * forex_signal_bot: the decision and session engine

    A shallow embedding of [forex_signal_bot.py]: the instrument catalog,
    the market clock gate [is_market_closed], the coercion cascade
    [coerce_to_buy_sell], the adapter wrapper [analyze_with_tradingview]
    and the two stateful handlers [pair_chosen] and [timeframe_chosen].

    Python values are modelled by the inductive [pyval]; exceptions by an
    error monad [res]; the module-level dict [user_data] by a [gmap] that
    is threaded through the handlers; what a handler does to the outside
    world (reading the clock, calling TradingView, logging, replying) by
    a trace of [event]s.  Text is modelled as UTF-8 byte strings;
    [str.upper()] upper-cases the ASCII letters itself and takes the
    upper case of every other character from the interpreter's Unicode
    case table, which the development takes as the variable
    [wide_upper].

    The menu handlers and the handler table of [main] follow: a text
    message is routed to the first handler whose filter accepts it. *)

From Stdlib Require Import ZArith Ascii String List DecimalString.
From stdpp Require Import base decidable option list gmap strings.

Local Open Scope string_scope.
Local Open Scope list_scope.
Local Open Scope Z_scope.

#[local] Set Warnings "-register-all,-clear-no-such-hyp".

(** ** Python strings *)

Module PyStr.

(** The upper case of an ASCII letter; other bytes are kept. *)
Definition upper_ascii (c : ascii) : ascii :=
  let n := nat_of_ascii c in
  if (Nat.leb 97 n && Nat.leb n 122)%bool then ascii_of_nat (n - 32) else c.

(** The bytes of a UTF-8 text: an ASCII character is one byte below 128;
    any other character is a lead byte (192 and above) followed by
    continuation bytes (128 to 191). *)
Definition is_ascii_byte (c : ascii) : bool := Nat.ltb (nat_of_ascii c) 128.
Definition is_continuation_byte (c : ascii) : bool :=
  (Nat.leb 128 (nat_of_ascii c) && Nat.ltb (nat_of_ascii c) 192)%bool.

(** The upper case of the non-ASCII character collected in [cur], if
    any: [wide] is the interpreter's case table, from the UTF-8 bytes of
    one non-ASCII character to the UTF-8 bytes of its upper case (one
    character or several, as for the sharp s). *)
Definition upper_pending (wide : string -> string) (cur : string) : string :=
  if String.eqb cur "" then "" else wide cur.

(** [s.upper()], character by character as CPython does it: [cur] holds
    the bytes read so far of the non-ASCII character under way. *)
Fixpoint upper_from (wide : string -> string) (cur : string) (s : string)
    : string :=
  match s with
  | EmptyString => upper_pending wide cur
  | String c s' =>
      if is_ascii_byte c then
        upper_pending wide cur +:+ String (upper_ascii c) (upper_from wide "" s')
      else if is_continuation_byte c then
        upper_from wide (cur +:+ String c "") s'
      else
        upper_pending wide cur +:+ upper_from wide (String c "") s'
  end.

Definition upper (wide : string -> string) (s : string) : string :=
  upper_from wide "" s.

(** [s.startswith(p)] *)
Definition startswith (s p : string) : bool := String.prefix p s.

(** [s.replace(old, new)] for a non-empty [old]: occurrences are replaced
    from left to right and do not overlap.  [skip] counts the characters
    of an occurrence that was just matched and is still to be dropped. *)
Fixpoint replace_from (old new : string) (skip : nat) (s : string) : string :=
  match s with
  | EmptyString => EmptyString
  | String c s' =>
      match skip with
      | S k => replace_from old new k s'
      | O =>
          if String.prefix old s
          then new +:+ replace_from old new (Nat.pred (String.length old)) s'
          else String c (replace_from old new O s')
      end
  end.

Definition replace (s old new : string) : string := replace_from old new O s.

(** [x in (a, b, ...)] for strings *)
Definition str_in (x : string) (l : list string) : bool :=
  bool_decide (x ∈ l).

Definition nl : string := String (ascii_of_nat 10) EmptyString.

End PyStr.

(** ** Python values and exceptions *)

(** The values a TradingView report can hold.  A dict is an association
    list in insertion order; keys are strings. *)
Inductive pyval : Type :=
  | PNone : pyval
  | PBool : bool -> pyval
  | PInt : Z -> pyval
  | PStr : string -> pyval
  | PList : list pyval -> pyval
  | PDict : list (string * pyval) -> pyval.

Inductive exn : Type :=
  | AttributeError (type_name attr : string)
  | KeyError (key : string)
  | AdapterError (msg : string).

(** A computation that returns or raises. *)
Inductive res (A : Type) : Type :=
  | Ret (a : A)
  | Raise (e : exn).
Arguments Ret {A} a.
Arguments Raise {A} e.

#[global] Instance res_ret : MRet res := @Ret.
#[global] Instance res_bind : MBind res := fun A B k m =>
  match m with
  | Ret a => k a
  | Raise e => Raise e
  end.

(** [try: m except Exception: h] *)
Definition try_except {A} (m : res A) (h : exn -> res A) : res A :=
  match m with
  | Ret a => Ret a
  | Raise e => h e
  end.

Module Py.

Definition type_name (v : pyval) : string :=
  match v with
  | PNone => "NoneType"
  | PBool _ => "bool"
  | PInt _ => "int"
  | PStr _ => "str"
  | PList _ => "list"
  | PDict _ => "dict"
  end.

(** Truth value of an object, as [or] tests it. *)
Definition truthy (v : pyval) : bool :=
  match v with
  | PNone => false
  | PBool b => b
  | PInt n => negb (n =? 0)
  | PStr s => negb (String.eqb s "")
  | PList l => match l with [] => false | _ => true end
  | PDict d => match d with [] => false | _ => true end
  end.

(** [a or b] *)
Definition or_ (a b : pyval) : pyval := if truthy a then a else b.

Fixpoint assoc (k : string) (d : list (string * pyval)) : option pyval :=
  match d with
  | [] => None
  | (k', v) :: d' => if String.eqb k k' then Some v else assoc k d'
  end.

(** [v.get(k)]: only a dict has the method; a missing key gives [None]. *)
Definition get (v : pyval) (k : string) : res pyval :=
  match v with
  | PDict d => Ret (default PNone (assoc k d))
  | _ => Raise (AttributeError (type_name v) "get")
  end.

(** [v.upper()]: only a string has the method. *)
Definition upper (wide : string -> string) (v : pyval) : res string :=
  match v with
  | PStr s => Ret (PyStr.upper wide s)
  | _ => Raise (AttributeError (type_name v) "upper")
  end.

(** [v.values()] *)
Definition values (v : pyval) : res (list pyval) :=
  match v with
  | PDict d => Ret (map snd d)
  | _ => Raise (AttributeError (type_name v) "values")
  end.

(** [str(v)].  On a container only the opening bracket is rendered
    faithfully; the code never looks past the first characters. *)
Definition str (v : pyval) : string :=
  match v with
  | PNone => "None"
  | PBool true => "True"
  | PBool false => "False"
  | PInt n => NilZero.string_of_int (Z.to_int n)
  | PStr s => s
  | PList _ => "[...]"
  | PDict _ => "{...}"
  end.

(** [sum(1 for v in vs if p(v))] *)
Definition count (p : pyval -> bool) (vs : list pyval) : Z :=
  Z.of_nat (length (filter (fun v => p v = true) vs)).

(** [random.choice(l)], the draw being the index [r] *)
Definition random_choice (r : nat) (l : list string) : string :=
  nth (r mod length l) l "".

Definition exn_str (e : exn) : string :=
  match e with
  | AttributeError t a =>
      "'" +:+ t +:+ "' object has no attribute '" +:+ a +:+ "'"
  | KeyError k => "'" +:+ k +:+ "'"
  | AdapterError m => m
  end.

End Py.

Ltac decide_now := apply (bool_decide_unpack _); vm_compute; exact I.

(** ** The interpreter's case table *)

(** A case table for the examples: the long s, the dotless i and the
    sharp s as Unicode maps them, every other non-ASCII character left
    as it is. *)
Definition latin_up (c : string) : string :=
  if String.eqb c "ſ" then "S"
  else if String.eqb c "ı" then "I"
  else if String.eqb c "ß" then "SS"
  else c.

Section Runtime.

(** The case table of the interpreter that runs the bot: the upper case
    [str.upper()] gives to one non-ASCII character.  Everything below
    holds whatever this table is. *)
Variable wide_upper : string -> string.

(** ** The report and the coercion cascade *)

(** The attributes of a [tradingview_ta] analysis that the bot reads. *)
Record Analysis : Type := {
  summary : pyval;
  moving_averages : pyval;
  oscillators : pyval
}.

(** [(d.get("RECOMMENDATION") or "").upper()] *)
Definition recommendation (d : pyval) : res string :=
  r ← Py.get d "RECOMMENDATION";
  Py.upper wide_upper (Py.or_ r (PStr "")).

Definition is_buy_vote (v : pyval) : bool :=
  PyStr.startswith (PyStr.upper wide_upper (Py.str v)) "BUY".
Definition is_sell_vote (v : pyval) : bool :=
  PyStr.startswith (PyStr.upper wide_upper (Py.str v)) "SELL".

(** The guarded tally of the moving-average votes: [Some] signal when one
    side wins, [None] on a draw; an exception inside the block is
    swallowed by [except Exception: pass]. *)
Definition ma_tally (analysis : Analysis) : option string :=
  let block :=
    c ← Py.get (moving_averages analysis) "COMPUTE";
    vs ← Py.values (Py.or_ c (PDict []));
    let buy_cnt := Py.count is_buy_vote vs in
    let sell_cnt := Py.count is_sell_vote vs in
    if sell_cnt <? buy_cnt then Ret (Some "BUY")
    else if buy_cnt <? sell_cnt then Ret (Some "SELL")
    else Ret None in
  match block with
  | Ret o => o
  | Raise _ => None
  end.

Definition coerce_to_buy_sell (r : nat) (analysis : Analysis) : res string :=
  summary ← try_except (recommendation (summary analysis))
                       (fun _ => Ret "");
  if PyStr.str_in summary ["BUY"; "STRONG_BUY"] then Ret "BUY"
  else if PyStr.str_in summary ["SELL"; "STRONG_SELL"] then Ret "SELL"
  else
    ma_rec ← recommendation (moving_averages analysis);
    if PyStr.str_in ma_rec ["BUY"; "STRONG_BUY"] then Ret "BUY"
    else if PyStr.str_in ma_rec ["SELL"; "STRONG_SELL"] then Ret "SELL"
    else
      osc_rec ← recommendation (oscillators analysis);
      if PyStr.str_in osc_rec ["BUY"; "STRONG_BUY"] then Ret "BUY"
      else if PyStr.str_in osc_rec ["SELL"; "STRONG_SELL"] then Ret "SELL"
      else
        match ma_tally analysis with
        | Some s => Ret s
        | None => Ret (Py.random_choice r ["BUY"; "SELL"])
        end.

(** ** The instrument catalog *)

Definition FOREX_PAIRS : list string := [
  "EUR/USD"; "GBP/USD"; "USD/JPY"; "USD/CHF"; "AUD/USD";
  "NZD/USD"; "USD/CAD"; "EUR/GBP"; "EUR/JPY"; "GBP/JPY";
  "AUD/JPY"; "CHF/JPY"; "EUR/AUD"; "EUR/CAD"; "GBP/AUD";
  "GBP/CAD"; "AUD/CAD"; "NZD/JPY"; "EUR/NZD"; "GBP/NZD"
].

Definition OTC_PAIRS : list string := map (fun p => p +:+ " OTC") FOREX_PAIRS.

Definition TIMEFRAMES_FOREX : list string := ["1m"; "5m"; "15m"; "30m"; "1h"].
Definition TIMEFRAMES_OTC : list string :=
  ["5s"; "10s"; "30s"; "1m"; "5m"; "15m"; "30m"; "1h"].

(** The members of [tradingview_ta.Interval] that the bot names. *)
Inductive Interval : Type :=
  | INTERVAL_1_MINUTE
  | INTERVAL_5_MINUTES
  | INTERVAL_15_MINUTES
  | INTERVAL_30_MINUTES
  | INTERVAL_1_HOUR.

Definition TF_MAP : list (string * Interval) := [
  ("5s", INTERVAL_1_MINUTE);
  ("10s", INTERVAL_1_MINUTE);
  ("30s", INTERVAL_1_MINUTE);
  ("1m", INTERVAL_1_MINUTE);
  ("5m", INTERVAL_5_MINUTES);
  ("15m", INTERVAL_15_MINUTES);
  ("30m", INTERVAL_30_MINUTES);
  ("1h", INTERVAL_1_HOUR)
].

Definition EXPLANATIONS : list (string * string) := [
  ("BUY", "📈 Импульс вверх — индикаторы подтверждают рост.");
  ("SELL", "📉 Давление вниз — индикаторы подтверждают снижение.")
].

(** [d.get(k, dflt)] and [d[k]] on a dict with string keys *)
Fixpoint dict_get {V} (d : list (string * V)) (k : string) (dflt : V) : V :=
  match d with
  | [] => dflt
  | (k', v) :: d' => if String.eqb k k' then v else dict_get d' k dflt
  end.

Fixpoint dict_item {V} (d : list (string * V)) (k : string) : res V :=
  match d with
  | [] => Raise (KeyError k)
  | (k', v) :: d' => if String.eqb k k' then Ret v else dict_item d' k
  end.

Definition tv_symbol_from_pair (pair : string) : string :=
  let base := PyStr.replace pair " OTC" "" in
  PyStr.replace base "/" "".

(** ** The market clock gate *)

(** What [is_market_closed] reads off [datetime.now(tz)], the wall clock
    of Europe/Moscow: [weekday] 0 = Monday ... 6 = Sunday. *)
Record moment : Type := {
  weekday : Z;
  hour : Z;
  minute : Z
}.

Definition is_market_closed (now : moment) : bool :=
  if bool_decide (weekday now ∈ [5; 6]) then true
  else if ((hour now =? 22) && (45 <=? minute now))
          || ((0 <=? hour now) && (hour now <? 2)) then true
  else false.

(** ** The world outside and what a handler does to it *)

(** The collaborators a request meets: the clock, the TradingView handler
    ([TA_Handler(symbol, screener, exchange, interval).get_analysis()])
    and the draw of [random.choice]. *)
Record world : Type := {
  now : moment;
  get_analysis : string -> string -> string -> Interval -> res Analysis;
  draw : nat
}.

Inductive event : Type :=
  | EvClock
  | EvAnalysis (symbol screener exchange : string) (interval : Interval)
  | EvLog (msg : string)
  | EvReply (text : string) (reply_markup : option (list (list string))).

Definition analyze_with_tradingview (w : world)
    (pair timeframe : string) (is_otc : bool)
    : list event * res (string * string) :=
  let symbol := tv_symbol_from_pair pair in
  let interval := dict_get TF_MAP timeframe INTERVAL_5_MINUTES in
  ([EvAnalysis symbol "forex" "FX_IDC" interval],
   analysis ← get_analysis w symbol "forex" "FX_IDC" interval;
   signal ← coerce_to_buy_sell (draw w) analysis;
   explain ← dict_item EXPLANATIONS signal;
   Ret (signal, explain)).

(** ** Sessions and handlers *)

(** An entry of [user_data]: [{"pair": text, "otc": flag}]. *)
Record session : Type := {
  pair : string;
  otc : bool
}.

Definition build_keyboard (rows : list (list string))
    : option (list (list string)) := Some rows.

Definition pair_chosen (text : string) (uid : Z) (user_data : gmap Z session)
    : gmap Z session * list event :=
  let reply user_data' tfs :=
    let keyboard := map (fun tf => [tf]) tfs ++ [["Сменить пару"; "Назад"]] in
    (user_data',
     [EvReply ("✅ Пара: " +:+ text +:+ PyStr.nl +:+ "Выберите таймфрейм:")
              (build_keyboard keyboard)]) in
  if PyStr.str_in text FOREX_PAIRS then
    reply (<[uid := {| pair := text; otc := false |}]> user_data)
          TIMEFRAMES_FOREX
  else if PyStr.str_in text OTC_PAIRS then
    reply (<[uid := {| pair := text; otc := true |}]> user_data)
          TIMEFRAMES_OTC
  else (user_data, []).

Definition NO_SELECTION : string :=
  "Сначала выбери валютную пару через кнопку Start.".
Definition MARKET_CLOSED : string :=
  "❌ Нет данных: рынок закрыт." +:+ PyStr.nl +:+ "👉 Перейти к OTC парам?".

Definition signal_text (pair tf signal short_explain : string) : string :=
  "📊 Пара: " +:+ pair +:+ PyStr.nl +:+
  "⏱ Таймфрейм: " +:+ tf +:+ PyStr.nl +:+
  "💡 Сигнал: " +:+ signal +:+ PyStr.nl +:+ PyStr.nl +:+
  short_explain.

Definition failure_text (pair tf : string) (e : exn) : string :=
  "⚠️ Ошибка анализа для " +:+ pair +:+ " на " +:+ tf +:+ ": " +:+ Py.exn_str e.

(** The [try] block around the analysis, its [except] branch and the
    reply that follows them. *)
Definition analysis_reply (w : world) (pair tf : string) (is_otc : bool)
    : list event :=
  let '(called, r) := analyze_with_tradingview w pair tf is_otc in
  match r with
  | Ret (signal, short_explain) =>
      called ++ [EvReply (signal_text pair tf signal short_explain) None]
  | Raise e =>
      called ++ [EvLog ("Ошибка анализа: " +:+ Py.exn_str e);
                 EvReply (failure_text pair tf e) None]
  end.

Definition timeframe_chosen (w : world) (tf : string) (uid : Z)
    (user_data : gmap Z session) : gmap Z session * list event :=
  if negb (PyStr.str_in tf (TIMEFRAMES_FOREX ++ TIMEFRAMES_OTC)) then
    (user_data, [])
  else
    match user_data !! uid with
    | None => (user_data, [EvReply NO_SELECTION None])
    | Some s =>
        let pair := pair s in
        let is_otc := otc s in
        (* [(not is_otc) and is_market_closed()]: the clock is read only
           when the left operand is true *)
        let '(gate, closed) :=
          if negb is_otc then ([EvClock], is_market_closed (now w))
          else ([], false) in
        if closed then
          (user_data,
           gate ++ [EvReply MARKET_CLOSED
                            (build_keyboard [["OTC пары"; "Назад"]])])
        else
          (user_data, gate ++ analysis_reply w pair tf is_otc)
    end.

(** ** Observations used in the statements *)

(** The raw value stored under ["RECOMMENDATION"] in a group of the
    report, when the group is a dict that has the key. *)
Definition rec_field (d : pyval) : option pyval :=
  match d with
  | PDict items => Py.assoc "RECOMMENDATION" items
  | _ => None
  end.

(** A stage is inconclusive when reading it raises or yields a word
    outside the four decisive ones. *)
Definition inconclusive (d : pyval) : bool :=
  match recommendation d with
  | Ret s => negb (PyStr.str_in s ["BUY"; "STRONG_BUY"; "SELL"; "STRONG_SELL"])
  | Raise _ => true
  end.

Definition calls_adapter (tr : list event) : Prop :=
  ∃ symbol screener exchange interval,
    EvAnalysis symbol screener exchange interval ∈ tr.

(** ** Sample inputs *)

(** A report whose overall recommendation is NEUTRAL and whose
    trend-following group is missing. *)
Definition report_without_trend : Analysis := {|
  summary := PDict [("RECOMMENDATION", PStr "NEUTRAL")];
  moving_averages := PNone;
  oscillators := PDict [("RECOMMENDATION", PStr "BUY")]
|}.

(** A report whose trend-following recommendation is a number. *)
Definition report_with_numeric_trend : Analysis := {|
  summary := PDict [("RECOMMENDATION", PStr "NEUTRAL")];
  moving_averages := PDict [("RECOMMENDATION", PInt 5)];
  oscillators := PDict [("RECOMMENDATION", PStr "BUY")]
|}.

(** Overall, trend-following and oscillator recommendations all
    inconclusive, the last one malformed (a number); the per-indicator
    votes are 4 BUY against 2 SELL. *)
Definition report_4_buy_2_sell_numeric_osc : Analysis := {|
  summary := PDict [("RECOMMENDATION", PStr "NEUTRAL")];
  moving_averages := PDict [
    ("RECOMMENDATION", PStr "NEUTRAL");
    ("COMPUTE", PDict [("EMA10", PStr "BUY"); ("SMA10", PStr "BUY");
                       ("EMA20", PStr "BUY"); ("SMA20", PStr "SELL");
                       ("EMA30", PStr "BUY"); ("SMA30", PStr "SELL")])];
  oscillators := PDict [("RECOMMENDATION", PInt 7)]
|}.

(** Tuesday, 23:00 Moscow time. *)
Definition tuesday_2300 : moment := {| weekday := 1; hour := 23; minute := 0 |}.

Definition report_strong_buy_osc_sell : Analysis := {|
  summary := PDict [("RECOMMENDATION", PStr "STRONG_BUY")];
  moving_averages := PDict [("RECOMMENDATION", PStr "NEUTRAL")];
  oscillators := PDict [("RECOMMENDATION", PStr "SELL")]
|}.

Definition report_neutral_strong_sell_buy : Analysis := {|
  summary := PDict [("RECOMMENDATION", PStr "NEUTRAL")];
  moving_averages := PDict [("RECOMMENDATION", PStr "STRONG_SELL")];
  oscillators := PDict [("RECOMMENDATION", PStr "BUY")]
|}.

(** An adapter that answers every request with the same report. *)
Definition steady_adapter (a : Analysis)
    : string → string → string → Interval → res Analysis :=
  λ _ _ _ _, Ret a.

(** Tuesday at noon: the market is open. *)
Definition open_world : world := {|
  now := {| weekday := 1; hour := 12; minute := 0 |};
  get_analysis := steady_adapter report_strong_buy_osc_sell;
  draw := 0
|}.

(** Saturday morning: the market is closed. *)
Definition closed_world : world := {|
  now := {| weekday := 5; hour := 10; minute := 0 |};
  get_analysis := steady_adapter report_strong_buy_osc_sell;
  draw := 0
|}.

Definition standard_store : gmap Z session :=
  {[ 7 := {| pair := "EUR/USD"; otc := false |} ]}.

Definition otc_store : gmap Z session :=
  {[ 7 := {| pair := "EUR/USD OTC"; otc := true |} ]}.

(** ** The menu handlers *)

Definition main_menu : list event :=
  let keyboard :=
    [["Выбрать валютную пару"]; ["Обычные пары"; "OTC пары"]] in
  [EvReply "Выбери действие:" (build_keyboard keyboard)].

Definition start : list event :=
  let keyboard :=
    [["Выбрать валютную пару"]; ["Обычные пары"; "OTC пары"]] in
  [EvReply "👋 Привет! Я бот-сигнальщик. Выбери действие:"
           (build_keyboard keyboard)].

Definition choose_forex : list event :=
  let keyboard := map (λ p, [p]) FOREX_PAIRS ++ [["Назад"]] in
  [EvReply "Выбери валютную пару:" (build_keyboard keyboard)].

Definition choose_otc : list event :=
  let keyboard := map (λ p, [p]) OTC_PAIRS ++ [["Назад"]] in
  [EvReply "Выбери OTC пару:" (build_keyboard keyboard)].

Definition back : list event := main_menu.

Definition change_pair : list event := main_menu.

(** ** Routing of text messages ([main]) *)

(** A text message as the handlers of [main] see it: its text, whether
    [CommandHandler("start")] accepts it (it opens with the command
    [/start] addressed to this bot) and whether [filters.COMMAND] holds
    (it opens with a bot command). *)
Record message : Type := {
  msg_text : string;
  is_start_command : bool;
  is_command : bool
}.

(** A message that is no command, as a button press sends it. *)
Definition plain (text : string) : message :=
  {| msg_text := text; is_start_command := false; is_command := false |}.

(** The callbacks registered in [main]. *)
Inductive callback : Type :=
  | CbStart
  | CbChooseForex
  | CbChooseOtc
  | CbBack
  | CbMainMenu
  | CbChangePair
  | CbTimeframeChosen
  | CbPairChosen.

#[global] Instance callback_eq_dec : EqDecision callback.
Proof. solve_decision. Defined.

(** [re.search] of a pattern [^(a1|...|an)$] whose alternatives are
    literal texts ([re.escape]d, or free of special characters): [^]
    holds at the start of the text only, [$] at its end or just before a
    final newline. *)
Definition regex_search (alts : list string) (text : string) : bool :=
  existsb (λ a, String.eqb text a || String.eqb text (a +:+ PyStr.nl)) alts.

(** What decides whether a handler takes a message. *)
Inductive handler_filter : Type :=
  | CommandStart
  | Regex (alts : list string)
  | TextNotCommandRegex (alts : list string).

Definition accepts (f : handler_filter) (m : message) : bool :=
  match f with
  | CommandStart => is_start_command m
  | Regex alts => regex_search alts (msg_text m)
  | TextNotCommandRegex alts =>
      negb (String.eqb (msg_text m) "") && negb (is_command m)
      && regex_search alts (msg_text m)
  end.

(** The handlers in the order [main] registers them. *)
Definition message_handlers : list (handler_filter * callback) := [
  (CommandStart, CbStart);
  (Regex ["Обычные пары"], CbChooseForex);
  (Regex ["OTC пары"], CbChooseOtc);
  (Regex ["Назад"], CbBack);
  (Regex ["Выбрать валютную пару"], CbMainMenu);
  (Regex ["Сменить пару"], CbChangePair);
  (TextNotCommandRegex (TIMEFRAMES_FOREX ++ TIMEFRAMES_OTC),
   CbTimeframeChosen);
  (TextNotCommandRegex (FOREX_PAIRS ++ OTC_PAIRS), CbPairChosen)
].

(** The first handler whose filter accepts the message takes it. *)
Fixpoint route (handlers : list (handler_filter * callback)) (m : message)
    : option callback :=
  match handlers with
  | [] => None
  | (f, cb) :: handlers' =>
      if accepts f m then Some cb else route handlers' m
  end.

(** One message of user [uid] through the application. *)
Definition process_update (w : world) (m : message) (uid : Z)
    (user_data : gmap Z session) : gmap Z session * list event :=
  match route message_handlers m with
  | None => (user_data, [])
  | Some CbStart => (user_data, start)
  | Some CbChooseForex => (user_data, choose_forex)
  | Some CbChooseOtc => (user_data, choose_otc)
  | Some CbBack => (user_data, back)
  | Some CbMainMenu => (user_data, main_menu)
  | Some CbChangePair => (user_data, change_pair)
  | Some CbTimeframeChosen => timeframe_chosen w (msg_text m) uid user_data
  | Some CbPairChosen => pair_chosen (msg_text m) uid user_data
  end.

(** ** Further observations *)

(** The button labels a reply puts on the keyboard. *)
Definition buttons (ev : event) : list string :=
  match ev with
  | EvReply _ (Some rows) => concat rows
  | _ => []
  end.

(** All the labels a trace offers on keyboards. *)
Definition offered (tr : list event) : list string :=
  concat (map buttons tr).

(** The labels the message handlers are registered for. *)
Definition MENU_LABELS : list string :=
  ["Обычные пары"; "OTC пары"; "Назад"; "Выбрать валютную пару";
   "Сменить пару"].

Definition is_reply (ev : event) : bool :=
  match ev with
  | EvReply _ _ => true
  | _ => false
  end.

Definition is_adapter_call (ev : event) : bool :=
  match ev with
  | EvAnalysis _ _ _ _ => true
  | _ => false
  end.

(** [count_events p tr]: how many events of [tr] satisfy [p]. *)
Definition count_events (p : event → bool) (tr : list event) : nat :=
  length (filter (λ ev, p ev = true) tr).

(** A group of the report whose recommendation can be read without an
    exception: the group is a dict and the value under the key is a
    string or counts as false (missing, [None], [0], [False], empty). *)
Definition readable (d : pyval) : bool :=
  match d with
  | PDict items =>
      match default PNone (Py.assoc "RECOMMENDATION" items) with
      | PStr _ => true
      | v => negb (Py.truthy v)
      end
  | _ => false
  end.

(** The votes the tally counts, when they can be read. *)
Definition ma_votes (analysis : Analysis) : res (list pyval) :=
  c ← Py.get (moving_averages analysis) "COMPUTE";
  Py.values (Py.or_ c (PDict [])).

(** An adapter that fails on every request. *)
Definition failing_adapter (e : exn)
    : string → string → string → Interval → res Analysis :=
  λ _ _ _ _, Raise e.

Definition broken_world : world := {|
  now := {| weekday := 1; hour := 12; minute := 0 |};
  get_analysis := failing_adapter (AdapterError "timeout");
  draw := 0
|}.

(** Overall and trend-following NEUTRAL, oscillators SELL. *)
Definition report_osc_sell : Analysis := {|
  summary := PDict [("RECOMMENDATION", PStr "NEUTRAL")];
  moving_averages := PDict [("RECOMMENDATION", PStr "NEUTRAL")];
  oscillators := PDict [("RECOMMENDATION", PStr "SELL")]
|}.

(** Everything NEUTRAL, one BUY vote against one SELL vote. *)
Definition report_draw : Analysis := {|
  summary := PDict [("RECOMMENDATION", PStr "NEUTRAL")];
  moving_averages := PDict [
    ("RECOMMENDATION", PStr "NEUTRAL");
    ("COMPUTE", PDict [("EMA10", PStr "BUY"); ("SMA10", PStr "SELL")])];
  oscillators := PDict [("RECOMMENDATION", PStr "NEUTRAL")]
|}.

(** ** The coercion cascade *)

Section Coercion.

Variable r : nat.
Variable a : Analysis.

Lemma str_in_true x l : PyStr.str_in x l = true ↔ x ∈ l.
Proof. unfold PyStr.str_in. apply bool_decide_eq_true. Qed.

Lemma str_in_false x l : PyStr.str_in x l = false ↔ x ∉ l.
Proof. unfold PyStr.str_in. apply bool_decide_eq_false. Qed.

Lemma recommendation_reads d s :
  rec_field d = Some (PStr s) → recommendation d = Ret (PyStr.upper wide_upper s).
Proof.
  destruct d as [| | | | |items]; simpl; try discriminate.
  intros H. unfold recommendation. simpl. rewrite H. simpl.
  unfold Py.or_. simpl.
  destruct (String.eqb_spec s ""); simpl; [subst|]; reflexivity.
Qed.

Lemma random_choice_signal :
  Py.random_choice r ["BUY"; "SELL"] ∈ ["BUY"; "SELL"].
Proof.
  unfold Py.random_choice. simpl length.
  assert (H : (r mod 2 < 2)%nat) by (apply Nat.mod_upper_bound; lia).
  destruct (r mod 2)%nat as [|[|n]]; simpl; [set_solver | set_solver | lia].
Qed.

Lemma ma_tally_signal s : ma_tally a = Some s → s ∈ ["BUY"; "SELL"].
Proof.
  unfold ma_tally.
  destruct (Py.get (moving_averages a) "COMPUTE") as [c|]; simpl;
    [|discriminate].
  destruct (Py.values (Py.or_ c (PDict []))) as [vs|]; simpl;
    [|discriminate].
  repeat case_match; intros; simplify_eq; set_solver.
Qed.

(** Whenever the cascade returns, it returns a signal. *)
Lemma coerce_returns_signal s :
  coerce_to_buy_sell r a = Ret s → s ∈ ["BUY"; "SELL"].
Proof.
  unfold coerce_to_buy_sell.
  destruct (try_except _ _) as [x|]; simpl; [|discriminate].
  repeat (case_match; try (intros; simplify_eq; set_solver)).
  all: simpl.
  all: destruct (recommendation (moving_averages a)) as [y|]; simpl;
    [|discriminate].
  all: repeat (case_match; try (intros; simplify_eq; set_solver)).
  all: simpl.
  all: destruct (recommendation (oscillators a)) as [z|]; simpl;
    [|discriminate].
  all: repeat (case_match; try (intros; simplify_eq; set_solver)).
  all: intros; simplify_eq.
  all: try (eapply ma_tally_signal; eassumption).
  all: apply random_choice_signal.
Qed.

Lemma sell_word_not_buy x :
  x ∈ ["SELL"; "STRONG_SELL"] → x ∉ ["BUY"; "STRONG_BUY"].
Proof. set_unfold. naive_solver. Qed.

Lemma decisive_split x :
  x ∉ ["BUY"; "STRONG_BUY"; "SELL"; "STRONG_SELL"] →
  (x ∉ ["BUY"; "STRONG_BUY"]) ∧ (x ∉ ["SELL"; "STRONG_SELL"]).
Proof. set_unfold. naive_solver. Qed.

(** What stage 1 leaves behind when it is inconclusive: a word that
    passes neither test, be it the word read or the [""] of the
    [except] branch. *)
Lemma inconclusive_overall :
  inconclusive (summary a) = true →
  ∃ x, try_except (recommendation (summary a)) (λ _, Ret "") = Ret x
       ∧ PyStr.str_in x ["BUY"; "STRONG_BUY"] = false
       ∧ PyStr.str_in x ["SELL"; "STRONG_SELL"] = false.
Proof.
  unfold inconclusive.
  destruct (recommendation (summary a)) as [x|e]; simpl; intros H.
  - exists x. apply negb_true_iff, str_in_false, decisive_split in H.
    rewrite !str_in_false. tauto.
  - exists "". split; [reflexivity|]. split; reflexivity.
Qed.

(** The cascade once its first word [x] is known. *)
Lemma coerce_after_overall x :
  try_except (recommendation (summary a)) (λ _, Ret "") = Ret x →
  coerce_to_buy_sell r a =
    if PyStr.str_in x ["BUY"; "STRONG_BUY"] then Ret "BUY"
    else if PyStr.str_in x ["SELL"; "STRONG_SELL"] then Ret "SELL"
    else
      ma_rec ← recommendation (moving_averages a);
      if PyStr.str_in ma_rec ["BUY"; "STRONG_BUY"] then Ret "BUY"
      else if PyStr.str_in ma_rec ["SELL"; "STRONG_SELL"] then Ret "SELL"
      else
        osc_rec ← recommendation (oscillators a);
        if PyStr.str_in osc_rec ["BUY"; "STRONG_BUY"] then Ret "BUY"
        else if PyStr.str_in osc_rec ["SELL"; "STRONG_SELL"] then Ret "SELL"
        else
          match ma_tally a with
          | Some s => Ret s
          | None => Ret (Py.random_choice r ["BUY"; "SELL"])
          end.
Proof. intros H. unfold coerce_to_buy_sell. rewrite H. reflexivity. Qed.

Lemma two_sided_test x :
  (x ∈ ["BUY"; "STRONG_BUY"] →
   PyStr.str_in x ["BUY"; "STRONG_BUY"] = true) ∧
  (x ∈ ["SELL"; "STRONG_SELL"] →
   PyStr.str_in x ["BUY"; "STRONG_BUY"] = false
   ∧ PyStr.str_in x ["SELL"; "STRONG_SELL"] = true).
Proof.
  split; intros H.
  - by apply str_in_true.
  - split; [by apply str_in_false, sell_word_not_buy | by apply str_in_true].
Qed.

(** The vote tally settles the signal when stage 1 is inconclusive and
    stages 2 and 3 read, without raising, words that decide nothing. *)
Lemma tally_decides (x y : string) (vs : list pyval) :
  inconclusive (summary a) = true →
  recommendation (moving_averages a) = Ret x →
  x ∉ ["BUY"; "STRONG_BUY"; "SELL"; "STRONG_SELL"] →
  recommendation (oscillators a) = Ret y →
  y ∉ ["BUY"; "STRONG_BUY"; "SELL"; "STRONG_SELL"] →
  (c ← Py.get (moving_averages a) "COMPUTE";
   Py.values (Py.or_ c (PDict []))) = Ret vs →
  (Py.count is_sell_vote vs < Py.count is_buy_vote vs →
   coerce_to_buy_sell r a = Ret "BUY")
  ∧ (Py.count is_buy_vote vs < Py.count is_sell_vote vs →
     coerce_to_buy_sell r a = Ret "SELL").
Proof.
  intros Hinc Hx Hxn Hy Hyn Hvs.
  destruct (inconclusive_overall Hinc) as (x0 & Hx0 & Hb0 & Hs0).
  rewrite (coerce_after_overall _ Hx0), Hb0, Hs0, Hx. simpl.
  apply decisive_split in Hxn as [Hxb Hxs].
  apply str_in_false in Hxb, Hxs. rewrite Hxb, Hxs, Hy. simpl.
  apply decisive_split in Hyn as [Hyb Hys].
  apply str_in_false in Hyb, Hys. rewrite Hyb, Hys.
  unfold ma_tally.
  destruct (Py.get (moving_averages a) "COMPUTE") as [c|]; simpl in *;
    [|discriminate].
  rewrite Hvs. simpl.
  split; intros Hlt.
  - apply Z.ltb_lt in Hlt. by rewrite Hlt.
  - assert (Hge : (Py.count is_sell_vote vs <? Py.count is_buy_vote vs)
                  = false) by (apply Z.ltb_ge; lia).
    apply Z.ltb_lt in Hlt. by rewrite Hge, Hlt.
Qed.

(** The cascade returns a signal as soon as stages 2 and 3 can be read. *)
Lemma coerce_total_on_clean_reads (x y : string) :
  recommendation (moving_averages a) = Ret x →
  recommendation (oscillators a) = Ret y →
  ∃ s, coerce_to_buy_sell r a = Ret s ∧ s ∈ ["BUY"; "SELL"].
Proof.
  intros Hx Hy.
  assert (∃ s, coerce_to_buy_sell r a = Ret s) as [s Hs].
  { unfold coerce_to_buy_sell. rewrite Hx, Hy.
    destruct (try_except _ _) as [x0|e] eqn:E.
    - simpl. repeat case_match; eauto.
    - destruct (recommendation (summary a)); discriminate. }
  exists s. split; [done | by eapply coerce_returns_signal].
Qed.

End Coercion.

(** C3.  The cascade runs in strict priority order.  A report whose
    overall recommendation reads BUY or STRONG_BUY (resp. SELL or
    STRONG_SELL) is coerced to BUY (resp. SELL) whatever the two
    sub-recommendation groups hold; and when the overall recommendation is
    inconclusive, a trend-following recommendation that reads BUY or
    STRONG_BUY (resp. SELL or STRONG_SELL) decides the same way whatever
    the oscillator group holds.  Words are read after [upper()], under
    the interpreter's case table [wide_upper]. *)
Theorem coerce_priority_order (r : nat) (a : Analysis) (s : string) :
  rec_field (summary a) = Some (PStr s)
  ∨ (inconclusive (summary a) = true
     ∧ rec_field (moving_averages a) = Some (PStr s)) →
  (PyStr.upper wide_upper s ∈ ["BUY"; "STRONG_BUY"] →
   coerce_to_buy_sell r a = Ret "BUY")
  ∧ (PyStr.upper wide_upper s ∈ ["SELL"; "STRONG_SELL"] →
     coerce_to_buy_sell r a = Ret "SELL").
Proof.
  destruct (two_sided_test (PyStr.upper wide_upper s)) as [Hbuy Hsell].
  intros [Hsum | [Hinc Hma]].
  - apply recommendation_reads in Hsum.
    assert (H1 : try_except (recommendation (summary a)) (λ _, Ret "")
                 = Ret (PyStr.upper wide_upper s)) by (by rewrite Hsum).
    rewrite (coerce_after_overall r a _ H1).
    split; intros Hw.
    + by rewrite Hbuy.
    + destruct (Hsell Hw) as [-> ->]. reflexivity.
  - destruct (inconclusive_overall a Hinc) as (x & Hx & Hxb & Hxs).
    rewrite (coerce_after_overall r a _ Hx), Hxb, Hxs.
    rewrite (recommendation_reads _ _ Hma). simpl.
    split; intros Hw.
    + by rewrite Hbuy.
    + destruct (Hsell Hw) as [-> ->]. reflexivity.
Qed.

(** C1.  The cascade is not total: only stage 1 and the tally are
    guarded.  On a report whose trend-following group is absent, or whose
    trend-following recommendation is malformed, reading stage 2 raises
    and the exception leaves [coerce_to_buy_sell]; stage 3 is not
    consulted and no signal is returned. *)
Theorem coerce_raises_on_unreadable_trend (r : nat) :
  coerce_to_buy_sell r report_without_trend
    = Raise (AttributeError "NoneType" "get")
  ∧ coerce_to_buy_sell r report_with_numeric_trend
    = Raise (AttributeError "int" "upper").
Proof. split; reflexivity. Qed.

(** C4.  The tally is not reached on every report whose three
    recommendations are inconclusive: with a malformed oscillator
    recommendation and votes of 4 BUY against 2 SELL, stage 3 raises
    before the votes are counted. *)
Theorem tally_unreached_on_malformed_oscillators (r : nat) :
  inconclusive (summary report_4_buy_2_sell_numeric_osc) = true
  ∧ inconclusive (moving_averages report_4_buy_2_sell_numeric_osc) = true
  ∧ inconclusive (oscillators report_4_buy_2_sell_numeric_osc) = true
  ∧ ma_tally report_4_buy_2_sell_numeric_osc = Some "BUY"
  ∧ coerce_to_buy_sell r report_4_buy_2_sell_numeric_osc
    = Raise (AttributeError "int" "upper").
Proof. repeat split; reflexivity. Qed.

(** ** The market clock gate *)

(** The condition [is_market_closed] computes. *)
Lemma is_market_closed_iff (t : moment) :
  is_market_closed t = true ↔
  weekday t = 5 ∨ weekday t = 6
  ∨ (hour t = 22 ∧ 45 ≤ minute t)
  ∨ (0 ≤ hour t < 2).
Proof.
  unfold is_market_closed. case_bool_decide as Hwd.
  - set_unfold. naive_solver.
  - destruct (_ || _) eqn:E.
    + split; [intros _ | done]. right; right.
      apply orb_true_iff in E as [E|E]; apply andb_true_iff in E as [E1 E2].
      * left. lia.
      * right. lia.
    + split; [done|]. intros [H|[H|H]].
      * exfalso. apply Hwd. set_unfold. tauto.
      * exfalso. apply Hwd. set_unfold. tauto.
      * apply orb_false_iff in E as [E1 E2].
        apply andb_false_iff in E1, E2. lia.
Qed.

Lemma is_market_closed_weekend (h m : Z) :
  is_market_closed {| weekday := 5; hour := h; minute := m |} = true
  ∧ is_market_closed {| weekday := 6; hour := h; minute := m |} = true.
Proof. split; reflexivity. Qed.

Lemma is_market_closed_samples :
  is_market_closed {| weekday := 2; hour := 1; minute := 30 |} = true
  ∧ is_market_closed {| weekday := 1; hour := 22; minute := 44 |} = false
  ∧ is_market_closed {| weekday := 1; hour := 22; minute := 45 |} = true
  ∧ is_market_closed {| weekday := 2; hour := 2; minute := 0 |} = false.
Proof. repeat split; reflexivity. Qed.

(** C5.  On a Tuesday at 23:00 the gate reports the market open: hour 23
    is neither the 22:45-22:59 slice nor the 00:00-01:59 slice the code
    tests, although it lies inside the nightly window 22:45-02:00. *)
Theorem market_open_on_tuesday_2300 :
  is_market_closed tuesday_2300 = false.
Proof. reflexivity. Qed.

(** ** The handlers *)

Lemma catalogs_disjoint (p : string) : p ∈ FOREX_PAIRS → p ∉ OTC_PAIRS.
Proof.
  assert (H : Forall (λ p, p ∉ OTC_PAIRS) FOREX_PAIRS).
  { apply (bool_decide_unpack _). vm_compute. exact I. }
  rewrite Forall_forall in H. apply H.
Qed.

Lemma standard_timeframes_are_otc (tf : string) :
  tf ∈ TIMEFRAMES_FOREX ++ TIMEFRAMES_OTC ↔ tf ∈ TIMEFRAMES_OTC.
Proof. unfold TIMEFRAMES_FOREX, TIMEFRAMES_OTC. set_unfold. naive_solver. Qed.

Lemma analyze_calls_once (w : world) (pair tf : string) (is_otc : bool) :
  (analyze_with_tradingview w pair tf is_otc).1 =
  [EvAnalysis (tv_symbol_from_pair pair) "forex" "FX_IDC"
              (dict_get TF_MAP tf INTERVAL_5_MINUTES)].
Proof. reflexivity. Qed.

(** The analysis path opens with the adapter call and then only logs and
    replies without a keyboard. *)
Lemma analysis_reply_shape (w : world) (pair tf : string) (is_otc : bool) :
  ∃ rest,
    analysis_reply w pair tf is_otc =
      EvAnalysis (tv_symbol_from_pair pair) "forex" "FX_IDC"
                 (dict_get TF_MAP tf INTERVAL_5_MINUTES) :: rest
    ∧ Forall (λ ev, match ev with
                    | EvLog _ | EvReply _ None => True
                    | _ => False
                    end) rest.
Proof.
  unfold analysis_reply, analyze_with_tradingview.
  destruct (_ ≫= _) as [[signal short_explain]|e]; simpl;
    eexists; (split; [reflexivity|]); repeat constructor.
Qed.

Lemma timeframe_chosen_unknown (w : world) (tf : string) (uid : Z)
    (user_data : gmap Z session) :
  tf ∉ TIMEFRAMES_FOREX ++ TIMEFRAMES_OTC →
  timeframe_chosen w tf uid user_data = (user_data, []).
Proof.
  intros H. unfold timeframe_chosen.
  apply str_in_false in H. by rewrite H.
Qed.

(** What [timeframe_chosen] does once a session is found. *)
Lemma timeframe_chosen_with_session (w : world) (tf : string) (uid : Z)
    (user_data : gmap Z session) (s : session) :
  tf ∈ TIMEFRAMES_FOREX ++ TIMEFRAMES_OTC →
  user_data !! uid = Some s →
  timeframe_chosen w tf uid user_data =
    (user_data,
     if otc s then analysis_reply w (pair s) tf true
     else EvClock ::
          if is_market_closed (now w)
          then [EvReply MARKET_CLOSED (build_keyboard [["OTC пары"; "Назад"]])]
          else analysis_reply w (pair s) tf false).
Proof.
  intros Htf Hs. unfold timeframe_chosen.
  apply str_in_true in Htf. rewrite Htf, Hs. simpl.
  destruct (otc s); simpl; [reflexivity|].
  destruct (is_market_closed (now w)); reflexivity.
Qed.

Lemma analysis_reply_calls_adapter (w : world) (pair tf : string)
    (is_otc : bool) :
  calls_adapter (analysis_reply w pair tf is_otc).
Proof.
  destruct (analysis_reply_shape w pair tf is_otc) as (rest & -> & _).
  do 4 eexists. apply list_elem_of_here.
Qed.

Lemma analysis_reply_no_gate (w : world) (pair tf : string) (is_otc : bool) :
  (EvClock ∉ analysis_reply w pair tf is_otc)
  ∧ ∀ text kb, EvReply text (Some kb) ∉ analysis_reply w pair tf is_otc.
Proof.
  destruct (analysis_reply_shape w pair tf is_otc) as (rest & -> & Hrest).
  rewrite Forall_forall in Hrest.
  split; [|intros text kb]; intros Hin;
    apply elem_of_cons in Hin as [Heq|Hin]; try discriminate;
    apply Hrest in Hin; exact Hin.
Qed.

(** C2 (amended).  A timeframe label outside the eight known labels, the
    two validity sets taken together, is dropped: no adapter call, no
    reply, the store as it was.  Whatever the session, an adapter call is
    only made for a label of that union, which is the OTC validity set. *)
Theorem unknown_timeframe_rejected (w : world) (tf : string) (uid : Z)
    (user_data : gmap Z session) :
  (tf ∉ TIMEFRAMES_FOREX ++ TIMEFRAMES_OTC →
   timeframe_chosen w tf uid user_data = (user_data, [])
   ∧ ¬ calls_adapter (timeframe_chosen w tf uid user_data).2)
  ∧ (calls_adapter (timeframe_chosen w tf uid user_data).2 →
     tf ∈ TIMEFRAMES_FOREX ++ TIMEFRAMES_OTC ∧ tf ∈ TIMEFRAMES_OTC).
Proof.
  assert (Hnone : ¬ calls_adapter []).
  { intros (sy & sc & ex & i & Hin). by apply elem_of_nil in Hin. }
  split.
  - intros Htf. rewrite (timeframe_chosen_unknown _ _ _ _ Htf). done.
  - intros Hcall.
    destruct (decide (tf ∈ TIMEFRAMES_FOREX ++ TIMEFRAMES_OTC)) as [Hin|Hout].
    + split; [done | by apply standard_timeframes_are_otc].
    + rewrite (timeframe_chosen_unknown _ _ _ _ Hout) in Hcall. done.
Qed.

(** C6.  With an OTC session and a valid timeframe the clock is never
    read: under every clock the handler goes straight to the adapter, for
    the session's pair and the interval of the timeframe.  The
    market-closed reply cannot come out of an OTC session, whatever the
    timeframe and the clock. *)
Theorem otc_bypasses_clock_gate (w : world) (tf : string) (uid : Z)
    (user_data : gmap Z session) (s : session) :
  user_data !! uid = Some s →
  otc s = true →
  tf ∈ TIMEFRAMES_OTC →
  let tr := (timeframe_chosen w tf uid user_data).2 in
  (EvClock ∉ tr)
  ∧ head tr = Some (EvAnalysis (tv_symbol_from_pair (pair s)) "forex" "FX_IDC"
                               (dict_get TF_MAP tf INTERVAL_5_MINUTES))
  ∧ ∀ w' tf',
      EvReply MARKET_CLOSED (build_keyboard [["OTC пары"; "Назад"]])
      ∉ (timeframe_chosen w' tf' uid user_data).2.
Proof.
  intros Hs Hotc Htf tr.
  apply standard_timeframes_are_otc in Htf.
  split; [|split].
  - subst tr. rewrite (timeframe_chosen_with_session _ _ _ _ _ Htf Hs), Hotc.
    apply analysis_reply_no_gate.
  - subst tr. rewrite (timeframe_chosen_with_session _ _ _ _ _ Htf Hs), Hotc.
    simpl. by destruct (analysis_reply_shape w (pair s) tf true) as (? & -> & _).
  - intros w' tf'. unfold build_keyboard.
    destruct (decide (tf' ∈ TIMEFRAMES_FOREX ++ TIMEFRAMES_OTC)) as [Hin|Hout].
    + rewrite (timeframe_chosen_with_session _ _ _ _ _ Hin Hs), Hotc.
      apply analysis_reply_no_gate.
    + rewrite (timeframe_chosen_unknown _ _ _ _ Hout). apply not_elem_of_nil.
Qed.

(** The market-closed reply is the only reply of [timeframe_chosen] that
    carries a keyboard; it comes from a standard session under a closed
    clock. *)
Lemma market_closed_only_standard (w : world) (tf : string) (uid : Z)
    (user_data : gmap Z session) (text : string) (kb : list (list string)) :
  EvReply text (Some kb) ∈ (timeframe_chosen w tf uid user_data).2 →
  text = MARKET_CLOSED
  ∧ ∃ s, user_data !! uid = Some s ∧ otc s = false
         ∧ is_market_closed (now w) = true.
Proof.
  destruct (decide (tf ∈ TIMEFRAMES_FOREX ++ TIMEFRAMES_OTC)) as [Hin|Hout].
  2:{ rewrite (timeframe_chosen_unknown _ _ _ _ Hout).
      intros H. by apply elem_of_nil in H. }
  destruct (user_data !! uid) as [s|] eqn:Hs.
  - rewrite (timeframe_chosen_with_session _ _ _ _ _ Hin Hs).
    destruct (otc s) eqn:Hotc; simpl.
    + intros H. by apply analysis_reply_no_gate in H.
    + destruct (is_market_closed (now w)) eqn:Hclosed; intros H;
        apply elem_of_cons in H as [H|H]; try discriminate.
      * apply list_elem_of_singleton in H. injection H as -> _. eauto.
      * by apply analysis_reply_no_gate in H.
  - unfold timeframe_chosen. apply str_in_true in Hin. rewrite Hin, Hs. simpl.
    intros H. apply list_elem_of_singleton in H. discriminate.
Qed.

(** C7.  A recognised timeframe from a user who has no session is
    answered with the guidance message and nothing else: the adapter is
    not called and the store is returned as it was, the key still
    absent. *)
Theorem no_active_selection (w : world) (tf : string) (uid : Z)
    (user_data : gmap Z session) :
  user_data !! uid = None →
  tf ∈ TIMEFRAMES_FOREX ++ TIMEFRAMES_OTC →
  timeframe_chosen w tf uid user_data
    = (user_data, [EvReply NO_SELECTION None])
  ∧ ¬ calls_adapter (timeframe_chosen w tf uid user_data).2
  ∧ (timeframe_chosen w tf uid user_data).1 !! uid = None.
Proof.
  intros Hnone Htf.
  assert (E : timeframe_chosen w tf uid user_data
              = (user_data, [EvReply NO_SELECTION None])).
  { unfold timeframe_chosen. apply str_in_true in Htf.
    by rewrite Htf, Hnone. }
  rewrite E. simpl. split; [done|]. split; [|done].
  intros (sy & sc & ex & i & Hin).
  apply list_elem_of_singleton in Hin. discriminate.
Qed.

(** C9.  A selection text that is in neither catalog changes nothing
    and answers nothing. *)
Theorem stray_selection_ignored (text : string) (uid : Z)
    (user_data : gmap Z session) :
  text ∉ FOREX_PAIRS →
  text ∉ OTC_PAIRS →
  pair_chosen text uid user_data = (user_data, []).
Proof.
  intros H1 H2. unfold pair_chosen.
  apply str_in_false in H1, H2. by rewrite H1, H2.
Qed.

(** C8 (amended).  Selecting a catalog instrument always goes through
    and overwrites the user's entry.  After [A] and then [B] the store is the
    original one with the user mapped to [B] and [B]'s OTC flag, nothing
    of [A] being left; the reply offers the timeframes of [B]'s class;
    and any of the eight known timeframe labels chosen next is handled
    with [B]'s flag and [B]'s symbol: no clock for an OTC [B], the clock
    gate first for a standard [B].  The label is not held against [B]'s
    validity set. *)
Theorem last_selection_wins (A B : string) (uid : Z)
    (user_data : gmap Z session) :
  A ∈ FOREX_PAIRS ++ OTC_PAIRS →
  B ∈ FOREX_PAIRS ++ OTC_PAIRS →
  let sA := {| pair := A; otc := bool_decide (A ∈ OTC_PAIRS) |} in
  let sB := {| pair := B; otc := bool_decide (B ∈ OTC_PAIRS) |} in
  let after_A := (pair_chosen A uid user_data).1 in
  let after_B := (pair_chosen B uid after_A).1 in
  after_A = <[uid := sA]> user_data
  ∧ after_B = <[uid := sB]> user_data
  ∧ after_B !! uid = Some sB
  ∧ (pair_chosen B uid after_A).2 =
      [EvReply ("✅ Пара: " +:+ B +:+ PyStr.nl +:+ "Выберите таймфрейм:")
         (build_keyboard
            (map (λ tf, [tf])
                 (if otc sB then TIMEFRAMES_OTC else TIMEFRAMES_FOREX)
             ++ [["Сменить пару"; "Назад"]]))]
  ∧ ∀ w tf,
      tf ∈ TIMEFRAMES_FOREX ++ TIMEFRAMES_OTC →
      timeframe_chosen w tf uid after_B =
        (after_B,
         if otc sB then analysis_reply w B tf true
         else EvClock ::
              if is_market_closed (now w)
              then [EvReply MARKET_CLOSED
                            (build_keyboard [["OTC пары"; "Назад"]])]
              else analysis_reply w B tf false).
Proof.
  intros HA HB sA sB after_A after_B.
  assert (Hsel : ∀ P (m : gmap Z session),
            P ∈ FOREX_PAIRS ++ OTC_PAIRS →
            pair_chosen P uid m =
              (<[uid := {| pair := P; otc := bool_decide (P ∈ OTC_PAIRS) |}]> m,
               [EvReply ("✅ Пара: " +:+ P +:+ PyStr.nl +:+ "Выберите таймфрейм:")
                  (build_keyboard
                     (map (λ tf, [tf])
                          (if bool_decide (P ∈ OTC_PAIRS)
                           then TIMEFRAMES_OTC else TIMEFRAMES_FOREX)
                      ++ [["Сменить пару"; "Назад"]]))])).
  { intros P m HP. unfold pair_chosen.
    apply elem_of_app in HP as [HP|HP].
    - pose proof (catalogs_disjoint _ HP) as Hno.
      apply str_in_true in HP. rewrite HP.
      by rewrite (bool_decide_eq_false_2 _ Hno).
    - assert (Hno : P ∉ FOREX_PAIRS).
      { intros HF. by apply (catalogs_disjoint _ HF). }
      apply str_in_false in Hno. rewrite Hno.
      pose proof HP as HP'. apply str_in_true in HP'. rewrite HP'.
      by rewrite (bool_decide_eq_true_2 _ HP). }
  assert (EA : after_A = <[uid := sA]> user_data).
  { subst after_A. by rewrite (Hsel A user_data HA). }
  assert (EB : after_B = <[uid := sB]> user_data).
  { subst after_B. rewrite (Hsel B after_A HB), EA. simpl.
    apply insert_insert_eq. }
  assert (LB : after_B !! uid = Some sB).
  { rewrite EB. apply lookup_insert_eq. }
  split; [done|]. split; [done|]. split; [done|]. split.
  - by rewrite (Hsel B after_A HB).
  - intros w tf Htf.
    apply (timeframe_chosen_with_session w tf uid after_B sB Htf LB).
Qed.

(** C10.  A timeframe that is not a key of [TF_MAP] does not make
    [analyze_with_tradingview] fail at the lookup: the adapter is called
    on the 5-minute interval and the outcome is that call's.  The keys
    5s, 10s and 30s are analysed on the 1-minute interval. *)
Theorem tf_map_lookup_defaults (w : world) (pair tf : string)
    (is_otc : bool) :
  let run interval :=
    ([EvAnalysis (tv_symbol_from_pair pair) "forex" "FX_IDC" interval],
     analysis ← get_analysis w (tv_symbol_from_pair pair)
                             "forex" "FX_IDC" interval;
     signal ← coerce_to_buy_sell (draw w) analysis;
     explain ← dict_item EXPLANATIONS signal;
     Ret (signal, explain)) in
  map fst TF_MAP = ["5s"; "10s"; "30s"; "1m"; "5m"; "15m"; "30m"; "1h"]
  ∧ (tf ∉ map fst TF_MAP →
     analyze_with_tradingview w pair tf is_otc = run INTERVAL_5_MINUTES)
  ∧ (tf ∈ ["5s"; "10s"; "30s"] →
     analyze_with_tradingview w pair tf is_otc = run INTERVAL_1_MINUTE).
Proof.
  intros run. split; [reflexivity|].
  assert (Hdflt : ∀ (d : list (string * Interval)) dflt,
            tf ∉ map fst d → dict_get d tf dflt = dflt).
  { induction d as [|[k v] d IH]; intros dflt Hk; simpl; [done|].
    simpl in Hk. apply not_elem_of_cons in Hk as [Hne Hk].
    destruct (String.eqb_spec tf k); [done | by apply IH]. }
  split; intros Htf; unfold analyze_with_tradingview, run.
  - by rewrite (Hdflt TF_MAP INTERVAL_5_MINUTES Htf).
  - set_unfold. destruct Htf as [->|[->|[->|[]]]]; reflexivity.
Qed.

(** ** The analysis-feed symbol *)

Lemma append_cons (c : ascii) (p q : string) :
  String c p +:+ q = String c (p +:+ q).
Proof. reflexivity. Qed.

Lemma append_empty (q : string) : "" +:+ q = q.
Proof. reflexivity. Qed.

(** On a text of fewer than four characters followed by the marker, no
    occurrence of the marker starts inside the text: the marker does not
    overlap itself. *)
Lemma otc_marker_needs_room (c : ascii) (p : string) :
  String.prefix " OTC" (String c p +:+ " OTC") = true →
  (3 ≤ String.length p)%nat.
Proof.
  destruct p as [|c1 [|c2 [|c3 p]]];
    rewrite ?append_cons, ?append_empty;
    cbn [String.prefix String.length]; try lia;
    (destruct (ascii_dec " " c) as [<-|]; [|cbv beta iota; intros [=]]);
    try (destruct (ascii_dec "O" c1) as [<-|]; [|cbv beta iota; intros [=]]);
    try (destruct (ascii_dec "T" c2) as [<-|]; [|cbv beta iota; intros [=]]);
    intros H; vm_compute in H; discriminate H.
Qed.

Lemma prefix_empty (s : string) : String.prefix "" s = true.
Proof. by destruct s. Qed.

Lemma prefix_app_room (old p q : string) :
  (String.length old ≤ String.length p)%nat →
  String.prefix old (p +:+ q) = String.prefix old p.
Proof.
  revert p. induction old as [|a old IH]; intros p Hlen.
  - by rewrite !prefix_empty.
  - destruct p as [|c p]; rewrite ?append_cons;
      cbn [String.prefix String.length] in *; [lia|].
    destruct (ascii_dec a c); [apply IH; lia | reflexivity].
Qed.

Lemma prefix_length (old p : string) :
  String.prefix old p = true → (String.length old ≤ String.length p)%nat.
Proof.
  revert p. induction old as [|a old IH]; intros p;
    cbn [String.length]; [lia|].
  destruct p as [|c p]; cbn [String.prefix String.length]; [intros [=]|].
  destruct (ascii_dec a c); [|intros [=]].
  intros H. apply IH in H. lia.
Qed.

(** With the marker appended, an occurrence starts at the head of the
    text exactly when it does without it. *)
Lemma marker_at_head_app (c : ascii) (p : string) :
  String.prefix " OTC" (String c (p +:+ " OTC"))
  = String.prefix " OTC" (String c p).
Proof.
  rewrite <- append_cons.
  destruct (String.prefix " OTC" (String c p +:+ " OTC")) eqn:E.
  - pose proof (otc_marker_needs_room c p E) as Hroom.
    rewrite prefix_app_room in E by (cbn [String.length]; lia). done.
  - destruct (String.prefix " OTC" (String c p)) eqn:E'; [|done].
    pose proof (prefix_length _ _ E') as Hlen.
    rewrite prefix_app_room in E by exact Hlen. congruence.
Qed.

(** Removing the marker from a text that ends with one more marker. *)
Lemma remove_marker_app (p : string) (k : nat) :
  (k ≤ String.length p)%nat →
  PyStr.replace_from " OTC" "" k (p +:+ " OTC")
  = PyStr.replace_from " OTC" "" k p.
Proof.
  revert k. induction p as [|c p IH]; intros k Hk.
  - cbn [String.length] in Hk. assert (k = 0%nat) as -> by lia. reflexivity.
  - rewrite append_cons. cbn [String.length] in Hk.
    destruct k as [|k]; cbn [PyStr.replace_from].
    + rewrite marker_at_head_app.
      destruct (String.prefix " OTC" (String c p)) eqn:E.
      * apply prefix_length in E. cbn [String.length] in E.
        cbn [String.length Nat.pred]. by rewrite IH by lia.
      * by rewrite IH by lia.
    + apply IH. lia.
Qed.

(** X1.  The OTC variant of any pair text is analysed under the symbol of
    the pair itself: appending the marker [" OTC"] does not change
    [tv_symbol_from_pair]. *)
Theorem otc_variant_shares_symbol (p : string) :
  tv_symbol_from_pair (p +:+ " OTC") = tv_symbol_from_pair p.
Proof.
  unfold tv_symbol_from_pair, PyStr.replace.
  by rewrite (remove_marker_app p 0) by lia.
Qed.

Lemma slash_removed (s : string) :
  "/"%char ∉ list_ascii_of_string (PyStr.replace s "/" "").
Proof.
  unfold PyStr.replace. induction s as [|c s IH].
  - simpl. apply not_elem_of_nil.
  - cbn [PyStr.replace_from String.prefix].
    destruct (ascii_dec "/" c) as [<-|Hne].
    + destruct s; simpl; exact IH.
    + simpl. apply not_elem_of_cons. split; [congruence | exact IH].
Qed.

(** X2.  The symbol handed to TradingView never contains the separator
    ["/"], whatever the pair text. *)
Theorem symbol_has_no_slash (p : string) :
  "/"%char ∉ list_ascii_of_string (tv_symbol_from_pair p).
Proof. unfold tv_symbol_from_pair. apply slash_removed. Qed.

(** ** More on the coercion cascade *)

Lemma recommendation_readable (d : pyval) :
  readable d = true ↔ ∃ x, recommendation d = Ret x.
Proof.
  unfold readable, recommendation.
  destruct d as [| | | | |items]; simpl;
    try (split; [discriminate | intros [x [=]]]).
  unfold Py.or_.
  destruct (default PNone (Py.assoc "RECOMMENDATION" items))
    as [|[]|n|s|[|v l]|[|kv l]]; simpl;
    try (split; [eauto | done]);
    try (split; [discriminate | intros [x [=]]]).
  - destruct (n =? 0); simpl; split; eauto; try discriminate.
    intros [x [=]].
  - destruct (String.eqb s ""); simpl; eauto.
Qed.

Lemma recommendation_unreadable (d : pyval) :
  readable d = false ↔ ∃ e, recommendation d = Raise e.
Proof.
  destruct (recommendation d) as [x|e] eqn:E.
  - assert (H : readable d = true) by (apply recommendation_readable; eauto).
    rewrite H. split; [discriminate | intros [e [=]]].
  - split; [eauto|]. intros _.
    destruct (readable d) eqn:H; [|done].
    apply recommendation_readable in H as [x Hx]. congruence.
Qed.

Lemma inconclusive_read (d : pyval) (x : string) :
  recommendation d = Ret x →
  inconclusive d = true ↔ x ∉ ["BUY"; "STRONG_BUY"; "SELL"; "STRONG_SELL"].
Proof.
  intros H. unfold inconclusive. rewrite H.
  rewrite negb_true_iff. apply str_in_false.
Qed.

(** The cascade after an inconclusive stage 1 and a stage 2 that reads a
    word deciding nothing. *)
Lemma coerce_after_trend (r : nat) (a : Analysis) (x : string) :
  inconclusive (summary a) = true →
  recommendation (moving_averages a) = Ret x →
  x ∉ ["BUY"; "STRONG_BUY"; "SELL"; "STRONG_SELL"] →
  coerce_to_buy_sell r a =
    osc_rec ← recommendation (oscillators a);
    if PyStr.str_in osc_rec ["BUY"; "STRONG_BUY"] then Ret "BUY"
    else if PyStr.str_in osc_rec ["SELL"; "STRONG_SELL"] then Ret "SELL"
    else
      match ma_tally a with
      | Some s => Ret s
      | None => Ret (Py.random_choice r ["BUY"; "SELL"])
      end.
Proof.
  intros Hinc Hx Hxn.
  destruct (inconclusive_overall a Hinc) as (x0 & Hx0 & Hb0 & Hs0).
  rewrite (coerce_after_overall r a _ Hx0), Hb0, Hs0, Hx. simpl.
  apply decisive_split in Hxn as [Hxb Hxs].
  apply str_in_false in Hxb, Hxs. by rewrite Hxb, Hxs.
Qed.

(** X3.  Stage 3 of the cascade: with the overall recommendation
    inconclusive and a trend-following recommendation that reads a word
    deciding nothing, an oscillator recommendation reading BUY or
    STRONG_BUY (resp. SELL or STRONG_SELL) gives BUY (resp. SELL), whatever
    the per-indicator votes are.  Words are read after [upper()], under
    the interpreter's case table [wide_upper]. *)
Theorem oscillators_decide_third (r : nat) (a : Analysis) (x s : string) :
  inconclusive (summary a) = true →
  recommendation (moving_averages a) = Ret x →
  x ∉ ["BUY"; "STRONG_BUY"; "SELL"; "STRONG_SELL"] →
  rec_field (oscillators a) = Some (PStr s) →
  (PyStr.upper wide_upper s ∈ ["BUY"; "STRONG_BUY"] →
   coerce_to_buy_sell r a = Ret "BUY")
  ∧ (PyStr.upper wide_upper s ∈ ["SELL"; "STRONG_SELL"] →
     coerce_to_buy_sell r a = Ret "SELL").
Proof.
  intros Hinc Hx Hxn Hs.
  rewrite (coerce_after_trend r a x Hinc Hx Hxn).
  rewrite (recommendation_reads _ _ Hs). simpl.
  destruct (two_sided_test (PyStr.upper wide_upper s)) as [Hbuy Hsell].
  split; intros Hw.
  - by rewrite Hbuy.
  - destruct (Hsell Hw) as [-> ->]. reflexivity.
Qed.

Lemma random_choice_parity (r : nat) :
  Py.random_choice r ["BUY"; "SELL"] = if Nat.even r then "BUY" else "SELL".
Proof.
  unfold Py.random_choice. cbn [length].
  pose proof (Nat.mod_upper_bound r 2 ltac:(lia)) as Hlt.
  destruct (Nat.even r) eqn:E.
  - apply Nat.even_spec in E as [k ->].
    replace ((2 * k) mod 2)%nat with 0%nat; [reflexivity|].
    symmetry. rewrite Nat.mul_comm. apply Nat.Div0.mod_mul.
  - assert (Ho : Nat.odd r = true) by (rewrite <- Nat.negb_even, E; done).
    apply Nat.odd_spec in Ho as [k ->].
    replace ((2 * k + 1) mod 2)%nat with 1%nat; [reflexivity|].
    symmetry. rewrite Nat.add_comm, Nat.mul_comm, Nat.Div0.mod_add.
    reflexivity.
Qed.

(** X4.  Stage 5 of the cascade: when stages 1 to 3 are inconclusive
    (stages 2 and 3 reading without an exception) and the votes either
    cannot be read or count as many BUY as SELL, the signal is the draw of
    [random.choice]: BUY on an even draw, SELL on an odd one.  Words and
    votes are read after [upper()], under the interpreter's case table
    [wide_upper]. *)
Theorem draw_settles_equilibrium (r : nat) (a : Analysis) (x y : string) :
  inconclusive (summary a) = true →
  recommendation (moving_averages a) = Ret x →
  x ∉ ["BUY"; "STRONG_BUY"; "SELL"; "STRONG_SELL"] →
  recommendation (oscillators a) = Ret y →
  y ∉ ["BUY"; "STRONG_BUY"; "SELL"; "STRONG_SELL"] →
  match ma_votes a with
  | Ret vs => Py.count is_buy_vote vs = Py.count is_sell_vote vs
  | Raise _ => True
  end →
  coerce_to_buy_sell r a = Ret (if Nat.even r then "BUY" else "SELL").
Proof.
  intros Hinc Hx Hxn Hy Hyn Hvotes.
  rewrite (coerce_after_trend r a x Hinc Hx Hxn), Hy. simpl.
  apply decisive_split in Hyn as [Hyb Hys].
  apply str_in_false in Hyb, Hys. rewrite Hyb, Hys.
  assert (Hnone : ma_tally a = None).
  { unfold ma_tally. unfold ma_votes in Hvotes.
    destruct (Py.get (moving_averages a) "COMPUTE") as [c|]; simpl in *;
      [|done].
    destruct (Py.values (Py.or_ c (PDict []))) as [vs|]; simpl in *; [|done].
    rewrite Hvotes, Z.ltb_irrefl. done. }
  by rewrite Hnone, random_choice_parity.
Qed.

(** X5.  [coerce_to_buy_sell] never returns anything but BUY or SELL. *)
Theorem coerce_never_neutral (r : nat) (a : Analysis) (s : string) :
  coerce_to_buy_sell r a = Ret s → s = "BUY" ∨ s = "SELL".
Proof.
  intros H. apply coerce_returns_signal in H.
  set_unfold. naive_solver.
Qed.

(** X6.  When [coerce_to_buy_sell] raises: exactly when the overall
    recommendation is inconclusive and either the trend-following
    recommendation cannot be read, or it reads a word deciding nothing and
    the oscillator recommendation cannot be read.  An unreadable overall
    recommendation or unreadable votes never make it raise.  Words are
    read after [upper()], under the interpreter's case table
    [wide_upper]. *)
Theorem coerce_raises_iff (r : nat) (a : Analysis) :
  (∃ e, coerce_to_buy_sell r a = Raise e) ↔
  inconclusive (summary a) = true
  ∧ (readable (moving_averages a) = false
     ∨ (inconclusive (moving_averages a) = true
        ∧ readable (oscillators a) = false)).
Proof.
  assert (Hstage1 : ∃ x0, try_except (recommendation (summary a))
                            (λ _, Ret "") = Ret x0).
  { destruct (recommendation (summary a)); simpl; eauto. }
  destruct Hstage1 as [x0 Hx0].
  rewrite (coerce_after_overall r a x0 Hx0).
  assert (Hinc0 : inconclusive (summary a) = true ↔
                  PyStr.str_in x0 ["BUY"; "STRONG_BUY"] = false
                  ∧ PyStr.str_in x0 ["SELL"; "STRONG_SELL"] = false).
  { split.
    - intros H. destruct (inconclusive_overall a H) as (x & Hx & ? & ?).
      rewrite Hx0 in Hx. by simplify_eq.
    - intros [Hb Hs]. unfold inconclusive.
      destruct (recommendation (summary a)) as [x|e]; [|done].
      simpl in Hx0. simplify_eq.
      apply negb_true_iff, str_in_false.
      apply str_in_false in Hb, Hs. set_unfold. naive_solver. }
  destruct (PyStr.str_in x0 ["BUY"; "STRONG_BUY"]) eqn:Eb.
  { split; [intros [e [=]]|]. intros [H _]. apply Hinc0 in H as [[=] _]. }
  destruct (PyStr.str_in x0 ["SELL"; "STRONG_SELL"]) eqn:Es.
  { split; [intros [e [=]]|]. intros [H _]. apply Hinc0 in H as [_ [=]]. }
  assert (Hinc : inconclusive (summary a) = true) by (by apply Hinc0).
  destruct (recommendation (moving_averages a)) as [x|e] eqn:Ex; simpl.
  2:{ split; [intros _|eauto]. split; [done|]. left.
      apply recommendation_unreadable. eauto. }
  assert (Hrx : readable (moving_averages a) = true)
    by (apply recommendation_readable; eauto).
  pose proof (inconclusive_read _ _ Ex) as Hix.
  destruct (PyStr.str_in x ["BUY"; "STRONG_BUY"]) eqn:Exb.
  { split; [intros [e [=]]|]. intros [_ [H|[H _]]]; [congruence|].
    apply Hix in H. apply str_in_true in Exb. set_unfold. naive_solver. }
  destruct (PyStr.str_in x ["SELL"; "STRONG_SELL"]) eqn:Exs.
  { split; [intros [e [=]]|]. intros [_ [H|[H _]]]; [congruence|].
    apply Hix in H. apply str_in_true in Exs. set_unfold. naive_solver. }
  assert (Hxi : inconclusive (moving_averages a) = true).
  { apply Hix. apply str_in_false in Exb, Exs. set_unfold. naive_solver. }
  destruct (recommendation (oscillators a)) as [y|e] eqn:Ey; simpl.
  - assert (Hry : readable (oscillators a) = true)
      by (apply recommendation_readable; eauto).
    split.
    + intros [e He]. repeat case_match; discriminate.
    + intros [_ [H|[_ H]]]; congruence.
  - split; [intros _|eauto]. split; [done|]. right. split; [done|].
    apply recommendation_unreadable. eauto.
Qed.

Lemma buy_sell_exclusive (v : pyval) :
  is_buy_vote v = true → is_sell_vote v = false.
Proof.
  unfold is_buy_vote, is_sell_vote, PyStr.startswith.
  destruct (PyStr.upper wide_upper (Py.str v)) as [|c s]; [done|].
  cbn [String.prefix].
  destruct (ascii_dec "B" c) as [<-|]; [|discriminate].
  intros _. destruct (ascii_dec "S" "B") as [E|]; [discriminate E | done].
Qed.

(** X7.  No vote is counted on both sides of the tally: the BUY count
    and the SELL count together never exceed the number of votes. *)
Theorem votes_counted_once (vs : list pyval) :
  Py.count is_buy_vote vs + Py.count is_sell_vote vs ≤ Z.of_nat (length vs).
Proof.
  unfold Py.count.
  assert (H : (length (filter (λ v, is_buy_vote v = true) vs)
               + length (filter (λ v, is_sell_vote v = true) vs)
               ≤ length vs)%nat).
  { induction vs as [|v vs IH]; [done|].
    rewrite !filter_cons. cbn [length].
    destruct (is_buy_vote v) eqn:Eb.
    - rewrite (buy_sell_exclusive v Eb).
      rewrite decide_True by done. rewrite decide_False by done.
      cbn [length]. lia.
    - rewrite decide_False by done.
      destruct (decide (is_sell_vote v = true)); cbn [length]; lia. }
  lia.
Qed.

(** ** More on the handlers *)

Lemma bind_ret {A B} (x : A) (k : A → res B) : (Ret x ≫= k) = k x.
Proof. reflexivity. Qed.

Lemma bind_raise {A B} (e : exn) (k : A → res B) :
  (Raise e ≫= k) = Raise e.
Proof. reflexivity. Qed.

(** X8.  [pair_chosen] only ever writes the sender's entry: the session
    of every other user is as it was, whatever the text. *)
Theorem pair_chosen_keeps_other_users (text : string) (uid uid' : Z)
    (user_data : gmap Z session) :
  uid ≠ uid' →
  (pair_chosen text uid user_data).1 !! uid' = user_data !! uid'.
Proof.
  intros Hne. unfold pair_chosen.
  repeat case_match; simpl; try done; by rewrite lookup_insert_ne.
Qed.

Lemma timeframe_chosen_fst (w : world) (tf : string) (uid : Z)
    (user_data : gmap Z session) :
  (timeframe_chosen w tf uid user_data).1 = user_data.
Proof. unfold timeframe_chosen. repeat case_match; reflexivity. Qed.

(** X9.  [timeframe_chosen] never writes the store: unknown label,
    missing session, closed market, signal or failed analysis, the store
    comes back as it was. *)
Theorem timeframe_chosen_keeps_store (w : world) (tf : string) (uid : Z)
    (user_data : gmap Z session) :
  (timeframe_chosen w tf uid user_data).1 = user_data.
Proof. apply timeframe_chosen_fst. Qed.

Lemma analysis_reply_on_failure (w : world) (pair tf : string)
    (is_otc : bool) (e : exn) :
  (analyze_with_tradingview w pair tf is_otc).2 = Raise e →
  analysis_reply w pair tf is_otc =
    [EvAnalysis (tv_symbol_from_pair pair) "forex" "FX_IDC"
                (dict_get TF_MAP tf INTERVAL_5_MINUTES);
     EvLog ("Ошибка анализа: " +:+ Py.exn_str e);
     EvReply (failure_text pair tf e) None].
Proof.
  unfold analysis_reply.
  destruct (analyze_with_tradingview w pair tf is_otc) as [called r] eqn:E.
  pose proof (analyze_calls_once w pair tf is_otc) as Hc.
  rewrite E in Hc. simpl in *. intros ->. by rewrite Hc.
Qed.

(** X10.  A failure of the analysis does not escape the handler.  When
    the adapter raises, or the coercion of its report does, the request
    is still answered: after the adapter call the error is logged and the
    user gets the failure message naming the pair, the timeframe and the
    error; the store is unchanged. *)
Theorem analysis_failure_is_reported (w : world) (tf : string) (uid : Z)
    (user_data : gmap Z session) (s : session) (e : exn) :
  tf ∈ TIMEFRAMES_FOREX ++ TIMEFRAMES_OTC →
  user_data !! uid = Some s →
  otc s = true ∨ is_market_closed (now w) = false →
  let symbol := tv_symbol_from_pair (pair s) in
  let interval := dict_get TF_MAP tf INTERVAL_5_MINUTES in
  get_analysis w symbol "forex" "FX_IDC" interval = Raise e
  ∨ (∃ a, get_analysis w symbol "forex" "FX_IDC" interval = Ret a
          ∧ coerce_to_buy_sell (draw w) a = Raise e) →
  timeframe_chosen w tf uid user_data =
    (user_data,
     (if otc s then [] else [EvClock]) ++
     [EvAnalysis symbol "forex" "FX_IDC" interval;
      EvLog ("Ошибка анализа: " +:+ Py.exn_str e);
      EvReply (failure_text (pair s) tf e) None]).
Proof.
  intros Htf Hs Hopen symbol interval Hfail.
  rewrite (timeframe_chosen_with_session _ _ _ _ _ Htf Hs).
  assert (Hr : ∀ o, (analyze_with_tradingview w (pair s) tf o).2 = Raise e).
  { intros o. unfold analyze_with_tradingview. cbn [snd].
    fold symbol. fold interval.
    destruct Hfail as [-> | (a & -> & Hc)]; [done|].
    by rewrite bind_ret, Hc. }
  destruct (otc s) eqn:Hotc.
  - by rewrite (analysis_reply_on_failure _ _ _ _ e (Hr true)).
  - destruct Hopen as [[=] | ->].
    by rewrite (analysis_reply_on_failure _ _ _ _ e (Hr false)).
Qed.

Lemma explanation_of_signal (s : string) :
  s ∈ ["BUY"; "SELL"] →
  ∃ explain, dict_item EXPLANATIONS s = Ret explain
             ∧ (s, explain) ∈ EXPLANATIONS.
Proof.
  unfold EXPLANATIONS.
  intros H. apply elem_of_cons in H as [->|H].
  - eexists. split; [reflexivity|]. apply list_elem_of_here.
  - apply list_elem_of_singleton in H as ->.
    eexists. split; [reflexivity|].
    apply list_elem_of_further, list_elem_of_here.
Qed.

(** X11.  [analyze_with_tradingview] fails only where the adapter or the
    coercion fails: once the adapter has returned a report and the
    coercion a signal, the result is that signal, BUY or SELL, with its
    entry of [EXPLANATIONS]; the lookup [EXPLANATIONS[signal]] never
    raises. *)
Theorem analysis_result_is_explained (w : world) (pair tf : string)
    (is_otc : bool) (a : Analysis) (signal : string) :
  get_analysis w (tv_symbol_from_pair pair) "forex" "FX_IDC"
               (dict_get TF_MAP tf INTERVAL_5_MINUTES) = Ret a →
  coerce_to_buy_sell (draw w) a = Ret signal →
  ∃ explain,
    (analyze_with_tradingview w pair tf is_otc).2 = Ret (signal, explain)
    ∧ (signal, explain) ∈ EXPLANATIONS
    ∧ (signal = "BUY" ∨ signal = "SELL").
Proof.
  intros Ha Hc.
  pose proof (coerce_returns_signal _ _ _ Hc) as Hsig.
  destruct (explanation_of_signal signal Hsig) as (explain & He & Hin).
  exists explain. split; [|split; [done|]].
  - unfold analyze_with_tradingview. cbn [snd].
    by rewrite Ha, bind_ret, Hc, bind_ret, He, bind_ret.
  - set_unfold. naive_solver.
Qed.

Lemma calls_adapter_cons_other (ev : event) (tr : list event) :
  is_adapter_call ev = false →
  calls_adapter (ev :: tr) ↔ calls_adapter tr.
Proof.
  intros Hev. unfold calls_adapter. split.
  - intros (sy & sc & ex & i & Hin).
    apply elem_of_cons in Hin as [<-|Hin]; [discriminate|]. eauto 10.
  - intros (sy & sc & ex & i & Hin).
    exists sy, sc, ex, i. by apply list_elem_of_further.
Qed.

Lemma calls_adapter_nil : ¬ calls_adapter [].
Proof. intros (sy & sc & ex & i & Hin). by apply elem_of_nil in Hin. Qed.

(** X12.  When the adapter is called: exactly when the label is one of
    the eight known ones, the user has a session, and that session is an
    OTC one or the clock gate reports the market open. *)
Theorem adapter_called_iff (w : world) (tf : string) (uid : Z)
    (user_data : gmap Z session) :
  calls_adapter (timeframe_chosen w tf uid user_data).2 ↔
  tf ∈ TIMEFRAMES_FOREX ++ TIMEFRAMES_OTC
  ∧ ∃ s, user_data !! uid = Some s
         ∧ (otc s = true ∨ is_market_closed (now w) = false).
Proof.
  destruct (decide (tf ∈ TIMEFRAMES_FOREX ++ TIMEFRAMES_OTC)) as [Htf|Htf].
  2:{ rewrite (timeframe_chosen_unknown _ _ _ _ Htf). simpl.
      split; [intros H; by apply calls_adapter_nil in H | tauto]. }
  destruct (user_data !! uid) as [s|] eqn:Hs.
  - rewrite (timeframe_chosen_with_session _ _ _ _ _ Htf Hs). simpl.
    destruct (otc s) eqn:Hotc.
    + split; [eauto 10|]. intros _. apply analysis_reply_calls_adapter.
    + rewrite calls_adapter_cons_other by done.
      destruct (is_market_closed (now w)) eqn:Hcl.
      * rewrite calls_adapter_cons_other by done.
        split; [intros H; by apply calls_adapter_nil in H|].
        intros (_ & s' & [= <-] & [H|H]); congruence.
      * split; [eauto 10|]. intros _. apply analysis_reply_calls_adapter.
  - unfold timeframe_chosen. pose proof Htf as Htf'.
    apply str_in_true in Htf'. rewrite Htf', Hs. simpl.
    rewrite calls_adapter_cons_other by done.
    split; [intros H; by apply calls_adapter_nil in H|].
    intros (_ & s & [=] & _).
Qed.

(** X13.  When the clock is read: exactly when the label is known and the
    user's session is a standard (non-OTC) one. *)
Theorem clock_read_iff (w : world) (tf : string) (uid : Z)
    (user_data : gmap Z session) :
  EvClock ∈ (timeframe_chosen w tf uid user_data).2 ↔
  tf ∈ TIMEFRAMES_FOREX ++ TIMEFRAMES_OTC
  ∧ ∃ s, user_data !! uid = Some s ∧ otc s = false.
Proof.
  destruct (decide (tf ∈ TIMEFRAMES_FOREX ++ TIMEFRAMES_OTC)) as [Htf|Htf].
  2:{ rewrite (timeframe_chosen_unknown _ _ _ _ Htf). simpl.
      split; [intros H; by apply elem_of_nil in H | tauto]. }
  destruct (user_data !! uid) as [s|] eqn:Hs.
  - rewrite (timeframe_chosen_with_session _ _ _ _ _ Htf Hs). simpl.
    destruct (otc s) eqn:Hotc.
    + split.
      * intros H. by apply analysis_reply_no_gate in H.
      * intros (_ & s' & [= <-] & H). congruence.
    + split; [eauto|]. intros _. apply list_elem_of_here.
  - unfold timeframe_chosen. pose proof Htf as Htf'.
    apply str_in_true in Htf'. rewrite Htf', Hs. simpl.
    split.
    + intros H. apply list_elem_of_singleton in H. discriminate.
    + intros (_ & s & [=] & _).
Qed.

Lemma analysis_reply_counts (w : world) (pair tf : string) (is_otc : bool) :
  count_events is_reply (analysis_reply w pair tf is_otc) = 1%nat
  ∧ count_events is_adapter_call (analysis_reply w pair tf is_otc) = 1%nat.
Proof.
  unfold analysis_reply, analyze_with_tradingview.
  destruct (_ ≫= _) as [[signal short_explain]|e]; split; reflexivity.
Qed.

(** X14.  One answer per request and no retry: a request with a known
    label produces exactly one reply, a request with an unknown label
    none; and the adapter is called at most once. *)
Theorem one_reply_per_request (w : world) (tf : string) (uid : Z)
    (user_data : gmap Z session) :
  let tr := (timeframe_chosen w tf uid user_data).2 in
  count_events is_reply tr
    = (if bool_decide (tf ∈ TIMEFRAMES_FOREX ++ TIMEFRAMES_OTC)
       then 1 else 0)%nat
  ∧ (count_events is_adapter_call tr ≤ 1)%nat.
Proof.
  intros tr. subst tr. case_bool_decide as Htf.
  2:{ rewrite (timeframe_chosen_unknown _ _ _ _ Htf). simpl.
      split; [reflexivity | unfold count_events; simpl; lia]. }
  destruct (user_data !! uid) as [s|] eqn:Hs.
  - rewrite (timeframe_chosen_with_session _ _ _ _ _ Htf Hs). simpl.
    destruct (analysis_reply_counts w (pair s) tf true) as [R1 A1].
    destruct (analysis_reply_counts w (pair s) tf false) as [R0 A0].
    destruct (otc s); [split; [done | lia]|].
    destruct (is_market_closed (now w)).
    + split; [reflexivity | unfold count_events; simpl; lia].
    + unfold count_events in *. rewrite !filter_cons.
      rewrite !decide_False by done. split; [done | lia].
  - unfold timeframe_chosen. pose proof Htf as Htf'.
    apply str_in_true in Htf'. rewrite Htf', Hs. simpl.
    split; [reflexivity | unfold count_events; simpl; lia].
Qed.

(** ** Keyboards and routing *)

Lemma pair_chosen_standard (p : string) (uid : Z)
    (user_data : gmap Z session) :
  p ∈ FOREX_PAIRS →
  (pair_chosen p uid user_data).1
  = <[uid := {| pair := p; otc := false |}]> user_data.
Proof.
  intros Hp. unfold pair_chosen. apply str_in_true in Hp. by rewrite Hp.
Qed.

Lemma pair_chosen_otc (p : string) (uid : Z) (user_data : gmap Z session) :
  p ∈ OTC_PAIRS →
  (pair_chosen p uid user_data).1
  = <[uid := {| pair := p; otc := true |}]> user_data.
Proof.
  intros Hp. unfold pair_chosen.
  assert (Hno : p ∉ FOREX_PAIRS).
  { intros HF. by apply (catalogs_disjoint _ HF). }
  apply str_in_false in Hno. apply str_in_true in Hp. by rewrite Hno, Hp.
Qed.

(** X15.  Every pair button is good for a selection: a label offered by
    [choose_forex] other than the back button is stored by [pair_chosen]
    as a standard session, one offered by [choose_otc] as an OTC
    session. *)
Theorem offered_pairs_are_selectable (b : string) (uid : Z)
    (user_data : gmap Z session) :
  (b ∈ offered choose_forex →
   b = "Назад"
   ∨ (pair_chosen b uid user_data).1
     = <[uid := {| pair := b; otc := false |}]> user_data)
  ∧ (b ∈ offered choose_otc →
     b = "Назад"
     ∨ (pair_chosen b uid user_data).1
       = <[uid := {| pair := b; otc := true |}]> user_data).
Proof.
  assert (Hf : offered choose_forex = FOREX_PAIRS ++ ["Назад"])
    by reflexivity.
  assert (Ho : offered choose_otc = OTC_PAIRS ++ ["Назад"]) by reflexivity.
  rewrite Hf, Ho. split; intros Hb;
    apply elem_of_app in Hb as [Hb|Hb];
    try (left; by apply list_elem_of_singleton in Hb); right.
  - by apply pair_chosen_standard.
  - by apply pair_chosen_otc.
Qed.

(** X16.  Every timeframe button fits the session just stored: a label
    on the keyboard that [pair_chosen] sends is a navigation button or a
    timeframe of the validity set matching the stored OTC flag, hence a
    label [timeframe_chosen] recognises. *)
Theorem offered_timeframes_fit_session (text b : string) (uid : Z)
    (user_data : gmap Z session) :
  b ∈ offered (pair_chosen text uid user_data).2 →
  b ∈ ["Сменить пару"; "Назад"]
  ∨ ∃ s, (pair_chosen text uid user_data).1 !! uid = Some s
         ∧ pair s = text
         ∧ b ∈ (if otc s then TIMEFRAMES_OTC else TIMEFRAMES_FOREX)
         ∧ b ∈ TIMEFRAMES_FOREX ++ TIMEFRAMES_OTC.
Proof.
  unfold pair_chosen.
  destruct (PyStr.str_in text FOREX_PAIRS);
    [|destruct (PyStr.str_in text OTC_PAIRS)]; cbn [fst snd].
  - change (offered _) with (TIMEFRAMES_FOREX ++ ["Сменить пару"; "Назад"]).
    intros Hb. apply elem_of_app in Hb as [Hb|Hb]; [right | by left].
    eexists. rewrite lookup_insert_eq. split; [done|]. split; [done|].
    split; [done|]. apply elem_of_app. by left.
  - change (offered _) with (TIMEFRAMES_OTC ++ ["Сменить пару"; "Назад"]).
    intros Hb. apply elem_of_app in Hb as [Hb|Hb]; [right | by left].
    eexists. rewrite lookup_insert_eq. split; [done|]. split; [done|].
    split; [done|]. apply elem_of_app. by right.
  - intros Hb. by apply elem_of_nil in Hb.
Qed.

Lemma regex_search_match (alts : list string) (text : string) :
  regex_search alts text = true ↔
  ∃ a, a ∈ alts ∧ (text = a ∨ text = a +:+ PyStr.nl).
Proof.
  unfold regex_search. rewrite existsb_exists. split.
  - intros (a & Hin & H). exists a. split; [by apply list_elem_of_In|].
    apply orb_true_iff in H as [H|H]; apply String.eqb_eq in H; eauto.
  - intros (a & Hin & H). exists a. split; [by apply list_elem_of_In|].
    apply orb_true_iff.
    destruct H as [->| ->]; [left | right]; apply String.eqb_refl.
Qed.

Lemma regex_search_exact (alts : list string) (text : string) :
  text ∈ alts → regex_search alts text = true.
Proof. intros H. apply regex_search_match. eauto. Qed.

(** The handlers in registration order, as [route] tries them. *)
Lemma route_message_handlers (m : message) :
  route message_handlers m =
    if is_start_command m then Some CbStart
    else if regex_search ["Обычные пары"] (msg_text m)
         then Some CbChooseForex
    else if regex_search ["OTC пары"] (msg_text m) then Some CbChooseOtc
    else if regex_search ["Назад"] (msg_text m) then Some CbBack
    else if regex_search ["Выбрать валютную пару"] (msg_text m)
         then Some CbMainMenu
    else if regex_search ["Сменить пару"] (msg_text m)
         then Some CbChangePair
    else if accepts (TextNotCommandRegex
                       (TIMEFRAMES_FOREX ++ TIMEFRAMES_OTC)) m
         then Some CbTimeframeChosen
    else if accepts (TextNotCommandRegex (FOREX_PAIRS ++ OTC_PAIRS)) m
         then Some CbPairChosen
    else None.
Proof. reflexivity. Qed.

Lemma market_closed_keyboard (w : world) (tf : string) (uid : Z)
    (user_data : gmap Z session) :
  offered (timeframe_chosen w tf uid user_data).2 = []
  ∨ offered (timeframe_chosen w tf uid user_data).2 = ["OTC пары"; "Назад"].
Proof.
  destruct (decide (tf ∈ TIMEFRAMES_FOREX ++ TIMEFRAMES_OTC)) as [Htf|Htf].
  2:{ rewrite (timeframe_chosen_unknown _ _ _ _ Htf). by left. }
  assert (Hno : ∀ o, offered (analysis_reply w o tf true) = []
                     ∧ offered (analysis_reply w o tf false) = []).
  { intros o. unfold analysis_reply, analyze_with_tradingview.
    split; destruct (_ ≫= _) as [[signal short_explain]|e]; reflexivity. }
  destruct (user_data !! uid) as [s|] eqn:Hs.
  - rewrite (timeframe_chosen_with_session _ _ _ _ _ Htf Hs). cbn [snd].
    destruct (Hno (pair s)) as [H1 H0].
    destruct (otc s); [by left|].
    destruct (is_market_closed (now w)); [by right | by left].
  - unfold timeframe_chosen. apply str_in_true in Htf. rewrite Htf, Hs.
    by left.
Qed.

(** X17.  No dead buttons: every label the bot ever puts on a keyboard,
    in the menus, the pair lists, after a selection or with the
    market-closed message, is taken by one of the handlers when it is sent
    back as a plain message. *)
Theorem offered_buttons_are_routed (w : world) (text tf b : string)
    (uid : Z) (user_data : gmap Z session) :
  b ∈ offered (start ++ main_menu ++ back ++ change_pair
               ++ choose_forex ++ choose_otc
               ++ (pair_chosen text uid user_data).2
               ++ (timeframe_chosen w tf uid user_data).2) →
  is_Some (route message_handlers (plain b)).
Proof.
  assert (Hall : Forall (λ l, is_Some (route message_handlers (plain l)))
                   (MENU_LABELS ++ (TIMEFRAMES_FOREX ++ TIMEFRAMES_OTC)
                    ++ FOREX_PAIRS ++ OTC_PAIRS)).
  { apply (bool_decide_unpack _). vm_compute. exact I. }
  rewrite Forall_forall in Hall. intros Hb. apply Hall.
  unfold offered in Hb. rewrite !map_app, !concat_app in Hb.
  fold (offered start) (offered main_menu) (offered back)
       (offered change_pair) (offered choose_forex) (offered choose_otc)
       (offered (pair_chosen text uid user_data).2)
       (offered (timeframe_chosen w tf uid user_data).2) in Hb.
  change (offered start) with ["Выбрать валютную пару"; "Обычные пары";
                                "OTC пары"] in Hb.
  change (offered main_menu) with ["Выбрать валютную пару"; "Обычные пары";
                                    "OTC пары"] in Hb.
  change (offered back) with ["Выбрать валютную пару"; "Обычные пары";
                               "OTC пары"] in Hb.
  change (offered change_pair) with ["Выбрать валютную пару";
                                      "Обычные пары"; "OTC пары"] in Hb.
  change (offered choose_forex) with (FOREX_PAIRS ++ ["Назад"]) in Hb.
  change (offered choose_otc) with (OTC_PAIRS ++ ["Назад"]) in Hb.
  assert (Hmenu : ∀ l, l ∈ ["Выбрать валютную пару"; "Обычные пары";
                             "OTC пары"; "Назад"; "Сменить пару"] →
                       l ∈ MENU_LABELS).
  { intros l. unfold MENU_LABELS. set_unfold. naive_solver. }
  rewrite !elem_of_app in Hb. rewrite !elem_of_app.
  destruct Hb as [Hb|[Hb|[Hb|[Hb|[Hb|[Hb|[Hb|Hb]]]]]]].
  1-4: left; apply Hmenu; set_unfold; naive_solver.
  - destruct Hb as [Hb|Hb]; [tauto|].
    left. apply Hmenu. set_unfold. naive_solver.
  - destruct Hb as [Hb|Hb]; [tauto|].
    left. apply Hmenu. set_unfold. naive_solver.
  - unfold pair_chosen in Hb.
    destruct (PyStr.str_in text FOREX_PAIRS);
      [|destruct (PyStr.str_in text OTC_PAIRS)]; cbn [snd] in Hb.
    + change (offered _)
        with (TIMEFRAMES_FOREX ++ ["Сменить пару"; "Назад"]) in Hb.
      apply elem_of_app in Hb as [Hb|Hb]; [tauto|].
      left. apply Hmenu. set_unfold. naive_solver.
    + change (offered _)
        with (TIMEFRAMES_OTC ++ ["Сменить пару"; "Назад"]) in Hb.
      apply elem_of_app in Hb as [Hb|Hb]; [tauto|].
      left. apply Hmenu. set_unfold. naive_solver.
    + by apply elem_of_nil in Hb.
  - destruct (market_closed_keyboard w tf uid user_data) as [E|E];
      rewrite E in Hb; [by apply elem_of_nil in Hb|].
    left. apply Hmenu. set_unfold. naive_solver.
Qed.

(** X18.  Each label reaches its own handler: sent as plain messages,
    the five menu labels go to their menu callbacks, every known
    timeframe label to [timeframe_chosen] and every catalog pair to
    [pair_chosen]; the order of registration never lets one handler take
    another's label.  A message accepted as the start command goes to
    [start], whatever its text. *)
Theorem labels_reach_their_handler (text : string) (m : message) :
  route message_handlers (plain "Обычные пары") = Some CbChooseForex
  ∧ route message_handlers (plain "OTC пары") = Some CbChooseOtc
  ∧ route message_handlers (plain "Назад") = Some CbBack
  ∧ route message_handlers (plain "Выбрать валютную пару") = Some CbMainMenu
  ∧ route message_handlers (plain "Сменить пару") = Some CbChangePair
  ∧ (text ∈ TIMEFRAMES_FOREX ++ TIMEFRAMES_OTC →
     route message_handlers (plain text) = Some CbTimeframeChosen)
  ∧ (text ∈ FOREX_PAIRS ++ OTC_PAIRS →
     route message_handlers (plain text) = Some CbPairChosen)
  ∧ (is_start_command m = true →
     route message_handlers m = Some CbStart).
Proof.
  do 5 (split; [reflexivity|]).
  assert (Htf : Forall (λ l, route message_handlers (plain l)
                             = Some CbTimeframeChosen)
                  (TIMEFRAMES_FOREX ++ TIMEFRAMES_OTC)).
  { apply (bool_decide_unpack _). vm_compute. exact I. }
  assert (Hp : Forall (λ l, route message_handlers (plain l)
                            = Some CbPairChosen)
                 (FOREX_PAIRS ++ OTC_PAIRS)).
  { apply (bool_decide_unpack _). vm_compute. exact I. }
  rewrite Forall_forall in Htf, Hp.
  split; [apply Htf|]. split; [apply Hp|].
  intros Hs. rewrite route_message_handlers. by rewrite Hs.
Qed.


(** X20.  Labels are matched exactly.  A message that is not the start
    command and whose text is none of the registered labels, nor a menu
    label followed by a newline, gets no reply and changes nothing; this
    includes a timeframe or pair label followed by a newline, which the
    pattern lets through and the handler's own membership test then
    drops. *)
Theorem unknown_text_is_ignored (w : world) (m : message) (uid : Z)
    (user_data : gmap Z session) :
  is_start_command m = false →
  msg_text m ∉ MENU_LABELS ++ (TIMEFRAMES_FOREX ++ TIMEFRAMES_OTC)
               ++ FOREX_PAIRS ++ OTC_PAIRS →
  (∀ l, l ∈ MENU_LABELS → msg_text m ≠ l +:+ PyStr.nl) →
  process_update w m uid user_data = (user_data, []).
Proof.
  intros Hstart Hno Hnl.
  apply not_elem_of_app in Hno as [Hm Hno].
  apply not_elem_of_app in Hno as [Htf Hno].
  apply not_elem_of_app in Hno as [HF HO].
  assert (Hmenu : ∀ l, l ∈ MENU_LABELS →
                       regex_search [l] (msg_text m) = false).
  { intros l Hl. destruct (regex_search [l] (msg_text m)) eqn:E; [|done].
    apply regex_search_match in E as (a & Ha & [E| E]);
      apply list_elem_of_singleton in Ha as ->.
    - rewrite E in Hm. done.
    - by destruct (Hnl l Hl). }
  unfold process_update. rewrite route_message_handlers, Hstart.
  rewrite !Hmenu by (unfold MENU_LABELS; set_unfold; naive_solver).
  destruct (accepts (TextNotCommandRegex
                       (TIMEFRAMES_FOREX ++ TIMEFRAMES_OTC)) m).
  { by apply timeframe_chosen_unknown. }
  destruct (accepts (TextNotCommandRegex (FOREX_PAIRS ++ OTC_PAIRS)) m);
    [|done].
  unfold pair_chosen. apply str_in_false in HF, HO. by rewrite HF, HO.
Qed.

(** ** Stage 4 and the two other outcomes *)

(** X21.  Stage 4 of the cascade: with the overall recommendation
    inconclusive and the two sub-recommendations reading words that decide
    nothing, the readable votes decide: more BUY than SELL votes give
    BUY, more SELL than BUY votes give SELL, whatever the draw.  Words and
    votes are read after [upper()], under the interpreter's case table
    [wide_upper]. *)
Theorem votes_decide_fourth (r : nat) (a : Analysis) (x y : string)
    (vs : list pyval) :
  inconclusive (summary a) = true →
  recommendation (moving_averages a) = Ret x →
  x ∉ ["BUY"; "STRONG_BUY"; "SELL"; "STRONG_SELL"] →
  recommendation (oscillators a) = Ret y →
  y ∉ ["BUY"; "STRONG_BUY"; "SELL"; "STRONG_SELL"] →
  ma_votes a = Ret vs →
  (Py.count is_sell_vote vs < Py.count is_buy_vote vs →
   coerce_to_buy_sell r a = Ret "BUY")
  ∧ (Py.count is_buy_vote vs < Py.count is_sell_vote vs →
     coerce_to_buy_sell r a = Ret "SELL").
Proof.
  intros Hinc Hx Hxn Hy Hyn Hvs.
  exact (tally_decides r a x y vs Hinc Hx Hxn Hy Hyn Hvs).
Qed.

(** X22.  The market-closed outcome: a known label from a user with a
    standard session, while the gate reports the market closed, is
    answered by the market-closed message with the keyboard offering the
    OTC pairs; the clock is read, the adapter is not called, the store is
    unchanged. *)
Theorem closed_market_is_announced (w : world) (tf : string) (uid : Z)
    (user_data : gmap Z session) (s : session) :
  tf ∈ TIMEFRAMES_FOREX ++ TIMEFRAMES_OTC →
  user_data !! uid = Some s →
  otc s = false →
  is_market_closed (now w) = true →
  timeframe_chosen w tf uid user_data =
    (user_data,
     [EvClock; EvReply MARKET_CLOSED (Some [["OTC пары"; "Назад"]])])
  ∧ route message_handlers (plain "OTC пары") = Some CbChooseOtc.
Proof.
  intros Htf Hs Hotc Hclosed. split; [|reflexivity].
  rewrite (timeframe_chosen_with_session _ _ _ _ _ Htf Hs).
  by rewrite Hotc, Hclosed.
Qed.

Lemma analysis_reply_on_success (w : world) (pair tf : string)
    (is_otc : bool) (signal explain : string) :
  (analyze_with_tradingview w pair tf is_otc).2 = Ret (signal, explain) →
  analysis_reply w pair tf is_otc =
    [EvAnalysis (tv_symbol_from_pair pair) "forex" "FX_IDC"
                (dict_get TF_MAP tf INTERVAL_5_MINUTES);
     EvReply (signal_text pair tf signal explain) None].
Proof.
  unfold analysis_reply.
  destruct (analyze_with_tradingview w pair tf is_otc) as [called r] eqn:E.
  pose proof (analyze_calls_once w pair tf is_otc) as Hc.
  rewrite E in Hc. simpl in *. intros ->. by rewrite Hc.
Qed.

(** X23.  The signal outcome: a known label from a user whose session is
    OTC, or standard with the market open, for which the adapter returns
    a report that the cascade coerces to a signal, is answered by one
    message giving the session's pair, the timeframe, the signal and the
    signal's entry of [EXPLANATIONS]; the adapter was asked for the
    pair's symbol on the interval of the timeframe. *)
Theorem signal_is_delivered (w : world) (tf : string) (uid : Z)
    (user_data : gmap Z session) (s : session) (a : Analysis)
    (signal : string) :
  tf ∈ TIMEFRAMES_FOREX ++ TIMEFRAMES_OTC →
  user_data !! uid = Some s →
  otc s = true ∨ is_market_closed (now w) = false →
  let symbol := tv_symbol_from_pair (pair s) in
  let interval := dict_get TF_MAP tf INTERVAL_5_MINUTES in
  get_analysis w symbol "forex" "FX_IDC" interval = Ret a →
  coerce_to_buy_sell (draw w) a = Ret signal →
  ∃ explain,
    (signal, explain) ∈ EXPLANATIONS
    ∧ timeframe_chosen w tf uid user_data =
        (user_data,
         (if otc s then [] else [EvClock]) ++
         [EvAnalysis symbol "forex" "FX_IDC" interval;
          EvReply (signal_text (pair s) tf signal explain) None]).
Proof.
  intros Htf Hs Hopen symbol interval Ha Hc.
  pose proof (coerce_returns_signal _ _ _ Hc) as Hsig.
  destruct (explanation_of_signal signal Hsig) as (explain & He & Hin).
  exists explain. split; [done|].
  assert (Hr : ∀ o, (analyze_with_tradingview w (pair s) tf o).2
                    = Ret (signal, explain)).
  { intros o. unfold analyze_with_tradingview. cbn [snd].
    fold symbol. fold interval.
    by rewrite Ha, bind_ret, Hc, bind_ret, He, bind_ret. }
  rewrite (timeframe_chosen_with_session _ _ _ _ _ Htf Hs).
  destruct (otc s) eqn:Hotc.
  - by rewrite (analysis_reply_on_success _ _ _ _ _ _ (Hr true)).
  - destruct Hopen as [[=] | ->].
    by rewrite (analysis_reply_on_success _ _ _ _ _ _ (Hr false)).
Qed.

End Runtime.

(** ** Instances *)

(** Under a case table that knows the long s, a recommendation or a vote
    spelt with it is upper-cased to SELL, as [str.upper()] does:
    the overall word decides at stage 1, and two such votes outnumber one
    BUY vote. *)
Lemma long_s_is_upper_cased :
  PyStr.upper latin_up "ſell" = "SELL"
  ∧ coerce_to_buy_sell latin_up 0
      {| summary := PDict [("RECOMMENDATION", PStr "ſell")];
         moving_averages := PDict [("RECOMMENDATION", PStr "BUY")];
         oscillators := PNone |}
    = Ret "SELL"
  ∧ coerce_to_buy_sell latin_up 0
      {| summary := PDict [];
         moving_averages := PDict [
           ("COMPUTE", PDict [("EMA10", PStr "ſell");
                              ("SMA10", PStr "ſell");
                              ("EMA20", PStr "BUY")])];
         oscillators := PDict [] |}
    = Ret "SELL".
Proof. repeat split; reflexivity. Qed.

Lemma coerce_priority_order_witness :
  coerce_to_buy_sell latin_up 0 report_strong_buy_osc_sell = Ret "BUY"
  ∧ coerce_to_buy_sell latin_up 0 report_neutral_strong_sell_buy = Ret "SELL".
Proof.
  split.
  - apply (coerce_priority_order latin_up 0 report_strong_buy_osc_sell "STRONG_BUY");
      [left; reflexivity | decide_now].
  - apply (coerce_priority_order latin_up 0 report_neutral_strong_sell_buy
             "STRONG_SELL");
      [right; split; reflexivity | decide_now].
Defined.

(** C2, as stated, fails: a standard session (EUR/USD) on an open market
    takes the label 5s, which is outside the standard validity set, and
    calls the adapter with it. *)
Lemma standard_session_accepts_5s :
  standard_store !! 7 = Some {| pair := "EUR/USD"; otc := false |}
  ∧ ("5s" ∉ TIMEFRAMES_FOREX)
  ∧ timeframe_chosen latin_up open_world "5s" 7 standard_store =
      (standard_store,
       [EvClock;
        EvAnalysis "EURUSD" "forex" "FX_IDC" INTERVAL_1_MINUTE;
        EvReply (signal_text "EUR/USD" "5s" "BUY"
                   "📈 Импульс вверх — индикаторы подтверждают рост.") None])
  ∧ calls_adapter (timeframe_chosen latin_up open_world "5s" 7 standard_store).2.
Proof.
  split; [reflexivity|]. split; [decide_now|]. split; [reflexivity|].
  exists "EURUSD", "forex", "FX_IDC", INTERVAL_1_MINUTE.
  apply list_elem_of_further, list_elem_of_here.
Qed.

(** C8, as stated, fails in its last clause: after EUR/USD OTC and then
    EUR/USD the session is the standard pair, yet the label 5s, which is
    outside the standard validity set, is taken on an open market and
    sent to the adapter: the timeframe is not evaluated against the
    validity set of the pair selected last. *)
Lemma reselected_standard_pair_accepts_5s :
  let after := (pair_chosen "EUR/USD" 7
                  (pair_chosen "EUR/USD OTC" 7 ∅).1).1 in
  after !! 7 = Some {| pair := "EUR/USD"; otc := false |}
  ∧ ("5s" ∉ TIMEFRAMES_FOREX)
  ∧ timeframe_chosen latin_up open_world "5s" 7 after =
      (after,
       [EvClock;
        EvAnalysis "EURUSD" "forex" "FX_IDC" INTERVAL_1_MINUTE;
        EvReply (signal_text "EUR/USD" "5s" "BUY"
                   "📈 Импульс вверх — индикаторы подтверждают рост.") None]).
Proof.
  split; [reflexivity|]. split; [decide_now | reflexivity].
Qed.

Lemma unknown_timeframe_rejected_witness :
  timeframe_chosen latin_up open_world "2h" 7 standard_store = (standard_store, [])
  ∧ ¬ calls_adapter (timeframe_chosen latin_up open_world "2h" 7 standard_store).2.
Proof.
  apply (unknown_timeframe_rejected latin_up open_world "2h" 7 standard_store).
  decide_now.
Defined.

Lemma otc_bypasses_clock_gate_witness :
  is_market_closed (now closed_world) = true
  ∧ head (timeframe_chosen latin_up closed_world "5s" 7 otc_store).2
    = Some (EvAnalysis "EURUSD" "forex" "FX_IDC" INTERVAL_1_MINUTE).
Proof.
  split; [reflexivity|].
  apply (otc_bypasses_clock_gate latin_up closed_world "5s" 7 otc_store
           {| pair := "EUR/USD OTC"; otc := true |});
    [reflexivity | reflexivity | decide_now].
Defined.

Lemma no_active_selection_witness :
  timeframe_chosen latin_up open_world "1m" 7 ∅ = (∅, [EvReply NO_SELECTION None]).
Proof.
  apply (no_active_selection latin_up open_world "1m" 7 ∅);
    [reflexivity | decide_now].
Defined.

Lemma last_selection_wins_witness :
  (pair_chosen "GBP/JPY OTC" 7 (pair_chosen "EUR/USD" 7 ∅).1).1 !! 7
  = Some {| pair := "GBP/JPY OTC"; otc := true |}.
Proof.
  apply (last_selection_wins latin_up "EUR/USD" "GBP/JPY OTC" 7 ∅); decide_now.
Defined.

Lemma stray_selection_ignored_witness :
  pair_chosen "BTC/USD" 7 standard_store = (standard_store, []).
Proof.
  apply (stray_selection_ignored "BTC/USD" 7 standard_store); decide_now.
Defined.

Lemma tf_map_lookup_defaults_witness :
  (analyze_with_tradingview latin_up open_world "EUR/USD" "4h" false).1
  = [EvAnalysis "EURUSD" "forex" "FX_IDC" INTERVAL_5_MINUTES]
  ∧ (analyze_with_tradingview latin_up open_world "EUR/USD OTC" "10s" true).1
    = [EvAnalysis "EURUSD" "forex" "FX_IDC" INTERVAL_1_MINUTE].
Proof.
  split.
  - rewrite (proj1 (proj2 (tf_map_lookup_defaults latin_up open_world
                             "EUR/USD" "4h" false))); [reflexivity|].
    decide_now.
  - rewrite (proj2 (proj2 (tf_map_lookup_defaults latin_up open_world
                             "EUR/USD OTC" "10s" true))); [reflexivity|].
    decide_now.
Defined.

Lemma oscillators_decide_third_witness :
  coerce_to_buy_sell latin_up 0 report_osc_sell = Ret "SELL".
Proof.
  apply (oscillators_decide_third latin_up 0 report_osc_sell "NEUTRAL" "SELL");
    [reflexivity | reflexivity | decide_now | reflexivity | decide_now].
Defined.

Lemma draw_settles_equilibrium_witness :
  coerce_to_buy_sell latin_up 1 report_draw = Ret "SELL".
Proof.
  apply (draw_settles_equilibrium latin_up 1 report_draw "NEUTRAL" "NEUTRAL");
    [reflexivity | reflexivity | decide_now | reflexivity | decide_now
    | reflexivity].
Defined.

Lemma coerce_never_neutral_witness :
  "BUY" = "BUY" ∨ "BUY" = "SELL".
Proof.
  apply (coerce_never_neutral latin_up 0 report_strong_buy_osc_sell "BUY").
  reflexivity.
Defined.

Lemma pair_chosen_keeps_other_users_witness :
  (pair_chosen "GBP/USD" 8 standard_store).1 !! 7 = standard_store !! 7.
Proof.
  apply (pair_chosen_keeps_other_users "GBP/USD" 8 7 standard_store). lia.
Defined.

Lemma analysis_failure_is_reported_witness :
  timeframe_chosen latin_up broken_world "5m" 7 standard_store =
    (standard_store,
     [EvClock;
      EvAnalysis "EURUSD" "forex" "FX_IDC" INTERVAL_5_MINUTES;
      EvLog ("Ошибка анализа: " +:+ "timeout");
      EvReply (failure_text "EUR/USD" "5m" (AdapterError "timeout")) None]).
Proof.
  apply (analysis_failure_is_reported latin_up broken_world "5m" 7 standard_store
           {| pair := "EUR/USD"; otc := false |} (AdapterError "timeout"));
    [decide_now | reflexivity | right; reflexivity | left; reflexivity].
Defined.

Lemma analysis_result_is_explained_witness :
  ∃ explain,
    (analyze_with_tradingview latin_up open_world "EUR/USD" "1h" false).2
    = Ret ("BUY", explain)
    ∧ ("BUY", explain) ∈ EXPLANATIONS
    ∧ ("BUY" = "BUY" ∨ "BUY" = "SELL").
Proof.
  apply (analysis_result_is_explained latin_up open_world "EUR/USD" "1h" false
           report_strong_buy_osc_sell "BUY"); reflexivity.
Defined.

Lemma offered_pairs_are_selectable_witness :
  (pair_chosen "USD/JPY" 7 ∅).1
  = <[7 := {| pair := "USD/JPY"; otc := false |}]> ∅.
Proof.
  destruct (proj1 (offered_pairs_are_selectable "USD/JPY" 7 ∅)) as [H|H];
    [decide_now | discriminate H | exact H].
Defined.

Lemma offered_timeframes_fit_session_witness :
  "15m" ∈ ["Сменить пару"; "Назад"]
  ∨ ∃ s, (pair_chosen "EUR/USD" 7 ∅).1 !! 7 = Some s
         ∧ pair s = "EUR/USD"
         ∧ "15m" ∈ (if otc s then TIMEFRAMES_OTC else TIMEFRAMES_FOREX)
         ∧ "15m" ∈ TIMEFRAMES_FOREX ++ TIMEFRAMES_OTC.
Proof.
  apply (offered_timeframes_fit_session "EUR/USD" "15m" 7 ∅). decide_now.
Defined.

Lemma offered_buttons_are_routed_witness :
  is_Some (route message_handlers (plain "OTC пары")).
Proof.
  apply (offered_buttons_are_routed latin_up closed_world "EUR/USD" "1m" "OTC пары"
           7 standard_store).
  decide_now.
Defined.

Lemma labels_reach_their_handler_witness :
  route message_handlers (plain "30s") = Some CbTimeframeChosen.
Proof.
  apply (labels_reach_their_handler "30s" (plain "30s")). decide_now.
Defined.

Lemma unknown_text_is_ignored_witness :
  process_update latin_up open_world (plain "hello") 7 standard_store
  = (standard_store, []).
Proof.
  apply (unknown_text_is_ignored latin_up open_world (plain "hello") 7
           standard_store).
  - reflexivity.
  - decide_now.
  - intros l Hl. unfold MENU_LABELS in Hl.
    repeat (apply elem_of_cons in Hl as [->|Hl]; [discriminate|]).
    by apply elem_of_nil in Hl.
Defined.

Lemma votes_decide_fourth_witness :
  coerce_to_buy_sell latin_up 1
    {| summary := PDict [("RECOMMENDATION", PStr "NEUTRAL")];
       moving_averages := PDict [
         ("COMPUTE", PDict [("EMA10", PStr "BUY"); ("SMA10", PStr "buy");
                            ("EMA20", PStr "SELL")])];
       oscillators := PDict [] |}
  = Ret "BUY".
Proof.
  eapply (votes_decide_fourth latin_up 1 _ "" "");
    [reflexivity | reflexivity | decide_now | reflexivity | decide_now
    | reflexivity | reflexivity].
Defined.

Lemma closed_market_is_announced_witness :
  timeframe_chosen latin_up closed_world "1m" 7 standard_store =
    (standard_store,
     [EvClock; EvReply MARKET_CLOSED (Some [["OTC пары"; "Назад"]])])
  ∧ route message_handlers (plain "OTC пары") = Some CbChooseOtc.
Proof.
  apply (closed_market_is_announced latin_up closed_world "1m" 7 standard_store
           {| pair := "EUR/USD"; otc := false |});
    [decide_now | reflexivity | reflexivity | reflexivity].
Defined.

Lemma signal_is_delivered_witness :
  ∃ explain,
    ("BUY", explain) ∈ EXPLANATIONS
    ∧ timeframe_chosen latin_up closed_world "10s" 7 otc_store =
        (otc_store,
         [EvAnalysis "EURUSD" "forex" "FX_IDC" INTERVAL_1_MINUTE;
          EvReply (signal_text "EUR/USD OTC" "10s" "BUY" explain) None]).
Proof.
  apply (signal_is_delivered latin_up closed_world "10s" 7 otc_store
           {| pair := "EUR/USD OTC"; otc := true |}
           report_strong_buy_osc_sell "BUY");
    [decide_now | reflexivity | left; reflexivity | reflexivity
    | reflexivity].
Defined.
